(** * readSEAM_inputFiles: the SEAM material-file reader and the manifest loop

    A shallow embedding of [MatFileReader.h] (class [SubsystemMaterial],
    class [MatFileReader]) and of the manifest loop of [main], together
    with the properties of the reader that the specification states.

    Layout:
    - [Stream]: the part of the C++ stream library the reader relies on
      ([getline], [operator>>] on [std::string] and on [double]);
    - [Mat]: [SubsystemMaterial], [MatFileReader::readMatFile];
    - [Manifest]: the loop of [main] over the lines of [seam.in];
    - the theorems. *)

From Stdlib Require Import ZArith QArith Lia Ascii String.
From stdpp Require Import base option list strings gmap fin_maps.

Local Open Scope string_scope.
Local Open Scope list_scope.

(* ===================================================================== *)
(** ** The stream library, as the reader uses it *)
(* ===================================================================== *)

Module Stream.

(** [line[0]]: the first character, and the null character for an empty
    string ([operator[]] at [size()] yields [charT()]). *)
Definition char0 (line : string) : ascii :=
  match line with
  | EmptyString => Ascii.zero
  | String c _ => c
  end.

Definition empty (line : string) : bool :=
  match line with
  | EmptyString => true
  | String _ _ => false
  end.

(** [std::isspace] in the classic locale: space, and the control
    characters 9 to 13. *)
Definition isspace (c : ascii) : bool :=
  let n := nat_of_ascii c in
  Nat.eqb n 32 || (Nat.leb 9 n && Nat.leb n 13).

Definition isdigit (c : ascii) : bool :=
  let n := nat_of_ascii c in
  Nat.leb 48 n && Nat.leb n 57.

Definition digit_val (c : ascii) : N := N.of_nat (nat_of_ascii c - 48).

(** [std::getline(file, line)] in a [while]: the successive lines of the
    file.  A final newline does not start another line, and an empty file
    has no line. *)
Fixpoint getlines (content : string) : list string :=
  match content with
  | EmptyString => []
  | String c rest =>
      if Ascii.eqb c "010" then EmptyString :: getlines rest
      else match getlines rest with
           | [] => [String c EmptyString]
           | l :: ls => String c l :: ls
           end
  end.

(** The sentry of a formatted input function: leading white space is
    discarded. *)
Fixpoint skipws (s : string) : string :=
  match s with
  | EmptyString => EmptyString
  | String c r => if isspace c then skipws r else s
  end.

(** The characters up to the next white space, and what follows them. *)
Fixpoint read_word (s : string) : string * string :=
  match s with
  | EmptyString => (EmptyString, EmptyString)
  | String c r =>
      if isspace c then (EmptyString, s)
      else let '(w, rest) := read_word r in (String c w, rest)
  end.

(** A [std::istringstream]: the characters not yet read, and [failbit].
    ([eofbit] needs no field of its own: it is set exactly when nothing is
    left, and an extraction then fails as it does on an empty rest.) *)
Record istringstream := mkStream { buf : string; failbit : bool }.

Definition open_line (line : string) : istringstream :=
  {| buf := line; failbit := false |}.

(** [iss >> str] for a [std::string]: when the stream has failed, or only
    white space is left, the stream fails and [str] keeps its value;
    otherwise [str] is replaced by the next word. *)
Definition get_string (iss : istringstream) (str : string)
  : istringstream * string :=
  if failbit iss then (iss, str)
  else match skipws (buf iss) with
       | EmptyString => ({| buf := EmptyString; failbit := true |}, str)
       | String c r =>
           let '(w, rest) := read_word (String c r) in
           ({| buf := rest; failbit := false |}, w)
       end.

(** *** Floating-point input *)

(** The value a decimal literal denotes, kept exactly: its sign (so that
    [-0] and [0] stay apart) and its magnitude as a reduced fraction.  The
    [double] the program stores is the binary64 number nearest to it, a
    function of this value. *)
Record double := mkDouble { dneg : bool; dmag : Q }.

Definition scan_sign (s : string) : option bool * string :=
  match s with
  | String c r =>
      if Ascii.eqb c "+" then (Some false, r)
      else if Ascii.eqb c "-" then (Some true, r)
      else (None, s)
  | EmptyString => (None, s)
  end.

Fixpoint scan_digits (s : string) : string * string :=
  match s with
  | String c r =>
      if isdigit c then let '(ds, rest) := scan_digits r in (String c ds, rest)
      else (EmptyString, s)
  | EmptyString => (EmptyString, EmptyString)
  end.

Definition scan_point (s : string) : string * string :=
  match s with
  | String c r =>
      if Ascii.eqb c "." then scan_digits r else (EmptyString, s)
  | EmptyString => (EmptyString, s)
  end.

Definition is_exp_char (c : ascii) : bool :=
  Ascii.eqb c "e" || Ascii.eqb c "E".

Fixpoint digits_value (acc : N) (ds : string) : N :=
  match ds with
  | EmptyString => acc
  | String c r => digits_value (10 * acc + digit_val c) r
  end.

(** Magnitudes from here on round to infinity in binary64
    ([HUGE_VAL]): 2^1024 - 2^970. *)
Definition huge : Z := 2 ^ 1024 - 2 ^ 970.

(** [strtod] on the accumulated characters: mantissa digits [ip.fp],
    decimal exponent [ex].  An overflowing value sets [failbit]. *)
Definition convert (neg : bool) (ip fp : string) (ex : Z) : option double :=
  let m := Z.of_N (digits_value 0 (ip +:+ fp)) in
  let e := (ex - Z.of_nat (String.length fp))%Z in
  if (0 <=? e)%Z then
    if (huge <=? m * 10 ^ e)%Z then None
    else Some (mkDouble neg (Qred (Qmake (m * 10 ^ e) 1)))
  else
    if (huge * 10 ^ (- e) <=? m)%Z then None
    else Some (mkDouble neg (Qred (Qmake m (Z.to_pos (10 ^ (- e)))))).

Definition is_neg (sg : option bool) : bool :=
  match sg with Some true => true | _ => false end.

(** [num_get] for [double] in the classic locale, after the sentry, as
    the libraries of GCC and of Visual C++ read it: an optional sign,
    digits with at most one decimal point, and, once a digit has been seen,
    an exponent letter with an optional sign and digits.  Reading stops at
    the first character that cannot continue the number, which stays in the
    stream.  The extraction fails when no digit was read, when an exponent
    letter is not followed by digits, or when the value overflows. *)
Definition scan_number (s : string) : option (double * string) :=
  let '(sg, s1) := scan_sign s in
  let '(ip, s2) := scan_digits s1 in
  let '(fp, s3) := scan_point s2 in
  if empty (ip +:+ fp) then None
  else
    match s3 with
    | String c r =>
        if is_exp_char c then
          let '(esg, s4) := scan_sign r in
          let '(ed, s5) := scan_digits s4 in
          if empty ed then None
          else
            let ex := Z.of_N (digits_value 0 ed) in
            option_map (fun d => (d, s5))
              (convert (is_neg sg) ip fp (if is_neg esg then (- ex)%Z else ex))
        else option_map (fun d => (d, s3)) (convert (is_neg sg) ip fp 0)
    | EmptyString => option_map (fun d => (d, s3)) (convert (is_neg sg) ip fp 0)
    end.

(** [iss >> prop] for a [double]. *)
Definition get_double (iss : istringstream) : istringstream * option double :=
  if failbit iss then (iss, None)
  else match scan_number (skipws (buf iss)) with
       | None => ({| buf := buf iss; failbit := true |}, None)
       | Some (d, rest) => ({| buf := rest; failbit := false |}, Some d)
       end.

End Stream.

(* ===================================================================== *)
(** ** MatFileReader.h *)
(* ===================================================================== *)

Module Mat.
Import Stream.

(** class [SubsystemMaterial]. *)
Record SubsystemMaterial := mkMaterial {
  subsystemId : string;
  type : string;
  properties : list double
}.

(** The constructor [SubsystemMaterial(id, tp)]: no property yet. *)
Definition new_material (id tp : string) : SubsystemMaterial :=
  {| subsystemId := id; type := tp; properties := [] |}.

(** class [MatFileReader]: its only member is the map [materials]. *)
Record MatFileReader := mkReader {
  materials : gmap string SubsystemMaterial
}.

(** A reader just constructed. *)
Definition fresh : MatFileReader := {| materials := ∅ |}.

(** [std::map::insert]: the element is stored only when the key is not
    in the map yet. *)
Definition map_insert (k : string) (v : SubsystemMaterial)
    (m : gmap string SubsystemMaterial) : gmap string SubsystemMaterial :=
  match m !! k with
  | Some _ => m
  | None => <[k := v]> m
  end.

(** [it = materials.find(id); if (it != materials.end())
    it->second.properties.push_back(prop)]. *)
Definition push_back_at (id : string) (prop : double)
    (m : gmap string SubsystemMaterial) : gmap string SubsystemMaterial :=
  match m !! id with
  | Some r =>
      <[id := {| subsystemId := subsystemId r; type := type r;
                 properties := properties r ++ [prop] |}]> m
  | None => m
  end.

(** [while (iss >> prop) { ... push_back ... }].  Every round that goes on
    reads at least one character, so the length of the line bounds the
    number of rounds ([read_properties_unfold] below). *)
Fixpoint read_properties (fuel : nat) (iss : istringstream) (id : string)
    (m : gmap string SubsystemMaterial) : gmap string SubsystemMaterial :=
  match fuel with
  | O => m
  | S fuel' =>
      match get_double iss with
      | (iss', Some prop) => read_properties fuel' iss' id (push_back_at id prop m)
      | (_, None) => m
      end
  end.

(** The reader and the local variables of [readMatFile] that live across
    the iterations of its [while (getline(file, line))] loop. *)
Record locals := mkLocals {
  this : MatFileReader;
  currentSubsystemId : string;
  currentType : string;
  lineCount : Z
}.

Definition enter (rd : MatFileReader) : locals :=
  {| this := rd; currentSubsystemId := ""; currentType := ""; lineCount := 1 |}.

(** One iteration of the loop, on [line]. *)
Definition process_line (st : locals) (line : string) : locals :=
  let iss := open_line line in
  if Ascii.eqb (char0 line) "!" then st
  else if Ascii.eqb (char0 line) "(" then st
  else if Ascii.eqb (char0 line) ")" then st
  else if negb (empty line) && negb (Ascii.eqb (char0 line) "(")
          && negb (Ascii.eqb (char0 line) "!") && (lineCount st =? 1)%Z then
    let '(iss1, id) := get_string iss (currentSubsystemId st) in
    let '(_, tp) := get_string iss1 (currentType st) in
    {| this := {| materials := map_insert id (new_material id tp) (materials (this st)) |};
       currentSubsystemId := id;
       currentType := tp;
       lineCount := 2 |}
  else if negb (empty line) && negb (Ascii.eqb (char0 line) "(")
          && negb (Ascii.eqb (char0 line) "!") && (lineCount st =? 2)%Z then
    {| this := {| materials :=
                    read_properties (S (String.length line)) iss
                      (currentSubsystemId st) (materials (this st)) |};
       currentSubsystemId := currentSubsystemId st;
       currentType := currentType st;
       lineCount := 1 |}
  else st.

Definition process_lines (st : locals) (lines : list string) : locals :=
  fold_left process_line lines st.

(** The files that can be opened, with their contents. *)
Definition FileSystem := string -> option string.

Definition endl : string := String "010" EmptyString.

(** [readMatFile(filename)] on the reader [rd]: the reader afterwards, and
    what the call wrote to [std::cerr]. *)
Definition readMatFile (fs : FileSystem) (filename : string)
    (rd : MatFileReader) : MatFileReader * string :=
  match fs filename with
  | None => (rd, "Failed to open file: " +:+ filename +:+ endl)
  | Some content => (this (process_lines (enter rd) (getlines content)), "")
  end.

(** The operation the specification calls [parse]: [readMatFile] on a
    reader just constructed, and the mapping it then holds. *)
Definition parse (fs : FileSystem) (filename : string)
  : gmap string SubsystemMaterial :=
  materials (fst (readMatFile fs filename fresh)).

End Mat.

(* ===================================================================== *)
(** ** The manifest loop of [main] *)
(* ===================================================================== *)

Module Manifest.
Import Stream.

Definition backslash : string := String "092" EmptyString.

(** [std::string fileFolder = "seamInputFiles\\"], [fileName], [FILEIN]. *)
Definition fileFolder : string := "seamInputFiles" +:+ backslash.
Definition fileName : string := "seam.in".
Definition FILEIN : string := fileFolder +:+ fileName.

(** [s.find(pat) != std::string::npos]. *)
Definition found (pat s : string) : bool :=
  match String.index 0 pat s with
  | Some _ => true
  | None => false
  end.

(** [s.substr(pos)]. *)
Definition substr (s : string) (pos : nat) : string :=
  String.substring pos (String.length s - pos) s.

Definition extractFilename (fullPath : string) : string :=
  let directory := "seamInputFiles" +:+ backslash in
  match String.index 0 directory fullPath with
  | Some pos => substr fullPath (pos + String.length directory)
  | None => ""
  end.

(** [std::ifstream testFile(path); if (testFile)]. *)
Definition opens (fs : Mat.FileSystem) (path : string) : bool :=
  match fs path with
  | Some _ => true
  | None => false
  end.

Inductive role := MAT | SUB | JNC | EXC | PAR.

(** Modelled from the spec: class [FileManager] of [filemanager.h], which
    [main] includes and which is not among the sources.  The specification
    gives it one scalar slot per role, and has the slot keep the first path
    stored in it: "only the first line matching each role test that also
    passes the existence check gets stored per role slot".  A slot is
    [None] until a path is stored. *)
Record FileManager := mkManager {
  MATFIL : option string;
  SUBFIL : option string;
  JNCFIL : option string;
  EXCFIL : option string;
  PARFIL : option string
}.

(** Modelled from the spec: the [FileManager] just constructed holds no
    path. *)
Definition new_manager : FileManager :=
  {| MATFIL := None; SUBFIL := None; JNCFIL := None; EXCFIL := None;
     PARFIL := None |}.

(** Modelled from the spec: what a setter of [FileManager] does to its
    slot; a path already stored stays. *)
Definition store (slot : option string) (path : string) : option string :=
  match slot with
  | Some p => Some p
  | None => Some path
  end.

(** Modelled from the spec: the five setters of [FileManager]. *)
Definition setMATFIL (path : string) (fm : FileManager) : FileManager :=
  {| MATFIL := store (MATFIL fm) path; SUBFIL := SUBFIL fm;
     JNCFIL := JNCFIL fm; EXCFIL := EXCFIL fm; PARFIL := PARFIL fm |}.
Definition setSUBFIL (path : string) (fm : FileManager) : FileManager :=
  {| MATFIL := MATFIL fm; SUBFIL := store (SUBFIL fm) path;
     JNCFIL := JNCFIL fm; EXCFIL := EXCFIL fm; PARFIL := PARFIL fm |}.
Definition setJNCFIL (path : string) (fm : FileManager) : FileManager :=
  {| MATFIL := MATFIL fm; SUBFIL := SUBFIL fm;
     JNCFIL := store (JNCFIL fm) path; EXCFIL := EXCFIL fm;
     PARFIL := PARFIL fm |}.
Definition setEXCFIL (path : string) (fm : FileManager) : FileManager :=
  {| MATFIL := MATFIL fm; SUBFIL := SUBFIL fm; JNCFIL := JNCFIL fm;
     EXCFIL := store (EXCFIL fm) path; PARFIL := PARFIL fm |}.
Definition setPARFIL (path : string) (fm : FileManager) : FileManager :=
  {| MATFIL := MATFIL fm; SUBFIL := SUBFIL fm; JNCFIL := JNCFIL fm;
     EXCFIL := EXCFIL fm; PARFIL := store (PARFIL fm) path |}.

(** Modelled from the spec: the getters, which [main] prints; an empty
    slot reads as the empty string. *)
Definition get (slot : option string) : string :=
  match slot with
  | Some p => p
  | None => ""
  end.

Definition slot (r : role) (fm : FileManager) : option string :=
  match r with
  | MAT => MATFIL fm
  | SUB => SUBFIL fm
  | JNC => JNCFIL fm
  | EXC => EXCFIL fm
  | PAR => PARFIL fm
  end.

(** The manager and what has been written to [std::cerr]. *)
Record world := mkWorld { fileManager : FileManager; cerr : string }.

Definition complain (w : world) (msg line : string) : world :=
  {| fileManager := fileManager w;
     cerr := cerr w +:+ msg +:+ line +:+ Mat.endl |}.

Definition accept (w : world) (set : string -> FileManager -> FileManager)
    (line : string) : world :=
  {| fileManager := set line (fileManager w); cerr := cerr w |}.

(** One iteration of [while (getline(file, line))] in [main]. *)
Definition main_line (fs : Mat.FileSystem) (w : world) (line : string) : world :=
  let cAddress := char0 line in
  let cDrive := "C"%char in
  if negb (Ascii.eqb cAddress cDrive) then w
  else if found ".mat" line then
    let filename := extractFilename line in
    if opens fs (fileFolder +:+ filename) then accept w setMATFIL line
    else if found ".mat" line
         then complain w "Error: MAT file does not exist - " line
         else w
  else if found ".sub" line then
    let filename := extractFilename line in
    if opens fs (fileFolder +:+ filename) then accept w setSUBFIL line
    else if found ".sub" line
         then complain w "Error: SUB file does not exist - " line
         else w
  else if found ".jun" line then
    let filename := extractFilename line in
    if opens fs (fileFolder +:+ filename) then accept w setJNCFIL line
    else if found ".jun" line
         then complain w "Error: JUN file does not exist - " line
         else w
  else if found ".exc" line then
    let filename := extractFilename line in
    if opens fs (fileFolder +:+ filename) then accept w setEXCFIL line
    else if found ".exc" line
         then complain w "Error: EXC file does not exist - " line
         else w
  else if found ".par" line then
    let filename := extractFilename line in
    if opens fs (fileFolder +:+ filename) then accept w setPARFIL line
    else if found ".par" line
         then complain w "Error: PAR file does not exist - " line
         else w
  else complain w "Error: File does not exist or unsupported file type - " line.

Definition main_lines (fs : Mat.FileSystem) (lines : list string) : world :=
  fold_left (main_line fs) lines {| fileManager := new_manager; cerr := "" |}.

(** What a run of [main] leaves: the exit status, both output channels,
    and the manager. *)
Record outcome := mkOutcome {
  status : Z;
  out : string;
  err : string;
  manager : FileManager
}.

Definition report (fm : FileManager) : string :=
  "MAT file path: " +:+ get (MATFIL fm) +:+ Mat.endl
  +:+ "SUB file path: " +:+ get (SUBFIL fm) +:+ Mat.endl
  +:+ "JNC file path: " +:+ get (JNCFIL fm) +:+ Mat.endl
  +:+ "EXC file path: " +:+ get (EXCFIL fm) +:+ Mat.endl
  +:+ "PAR file path: " +:+ get (PARFIL fm) +:+ Mat.endl.

Definition main (fs : Mat.FileSystem) : outcome :=
  match fs FILEIN with
  | Some content =>
      let w := main_lines fs (getlines content) in
      {| status := 0; out := report (fileManager w); err := cerr w;
         manager := fileManager w |}
  | None =>
      {| status := 1; out := "";
         err := "Unable to open the input file" +:+ Mat.endl;
         manager := new_manager |}
  end.

End Manifest.

(* ===================================================================== *)
(** ** The vocabulary of the specification *)
(* ===================================================================== *)

Module Spec.
Import Stream Mat.

(** The lines the specification calls skipped: the empty line, the
    comment line, and the two bracket-marker lines. *)
Definition skipped (line : string) : bool :=
  empty line
  || Ascii.eqb (char0 line) "!"
  || Ascii.eqb (char0 line) "("
  || Ascii.eqb (char0 line) ")".

(** The two phases of the specification are the two values of
    [lineCount]. *)
Definition HEADER : Z := 1.
Definition PROPERTIES : Z := 2.

(** What a header line leaves in [currentSubsystemId] and in
    [currentType], when these held [id0] and [tp0] before. *)
Definition header_id (line id0 : string) : string :=
  snd (get_string (open_line line) id0).

Definition header_type (line tp0 : string) : string :=
  snd (get_string (fst (get_string (open_line line) "")) tp0).

(** The white-space separated tokens of a line. *)
Fixpoint words (s : string) : list string :=
  match s with
  | EmptyString => []
  | String c r =>
      if isspace c then words r
      else match r with
           | EmptyString => [String c EmptyString]
           | String c' _ =>
               if isspace c' then String c EmptyString :: words r
               else match words r with
                    | w :: ws => String c w :: ws
                    | [] => [String c EmptyString]
                    end
           end
  end.

(** A token parses as a number when reading a number from it uses all of
    it. *)
Definition token_number (tok : string) : option double :=
  match scan_number tok with
  | Some (d, EmptyString) => Some d
  | _ => None
  end.

(** The numeric tokens in order, up to the first token that is not one. *)
Fixpoint numeric_prefix (toks : list string) : list double :=
  match toks with
  | [] => []
  | t :: ts =>
      match token_number t with
      | Some d => d :: numeric_prefix ts
      | None => []
      end
  end.

(** The same with the laxer reading of "parses as a number": a number can
    be read from the start of the token. *)
Fixpoint numeric_prefix_lax (toks : list string) : list double :=
  match toks with
  | [] => []
  | t :: ts =>
      match scan_number t with
      | Some (d, _) => d :: numeric_prefix_lax ts
      | None => []
      end
  end.

(** Every token before the first one from which no number can be read is
    a number as a whole. *)
Fixpoint whole_tokens (toks : list string) : bool :=
  match toks with
  | [] => true
  | t :: ts =>
      match scan_number t with
      | None => true
      | Some (_, EmptyString) => whole_tokens ts
      | Some (_, String _ _) => false
      end
  end.

(** The numbers the loop [while (iss >> prop)] reads from a line, apart
    from the map they go to. *)
Fixpoint extract_doubles (fuel : nat) (iss : istringstream) : list double :=
  match fuel with
  | O => []
  | S fuel' =>
      match get_double iss with
      | (iss', Some prop) => prop :: extract_doubles fuel' iss'
      | (_, None) => []
      end
  end.

Definition line_doubles (line : string) : list double :=
  extract_doubles (S (String.length line)) (open_line line).

(** A record with further properties at its end. *)
Definition extend (r : SubsystemMaterial) (ps : list double) : SubsystemMaterial :=
  {| subsystemId := subsystemId r; type := type r;
     properties := properties r ++ ps |}.

(** Every record is stored under its own [subsystemId]. *)
Definition keyed (m : gmap string SubsystemMaterial) : Prop :=
  ∀ k r, m !! k = Some r → subsystemId r = k.

(** The role the chain of tests in [main] gives a line. *)
Definition classify (line : string) : option Manifest.role :=
  if Manifest.found ".mat" line then Some Manifest.MAT
  else if Manifest.found ".sub" line then Some Manifest.SUB
  else if Manifest.found ".jun" line then Some Manifest.JNC
  else if Manifest.found ".exc" line then Some Manifest.EXC
  else if Manifest.found ".par" line then Some Manifest.PAR
  else None.

Definition role_eqb (a b : Manifest.role) : bool :=
  match a, b with
  | Manifest.MAT, Manifest.MAT | Manifest.SUB, Manifest.SUB
  | Manifest.JNC, Manifest.JNC | Manifest.EXC, Manifest.EXC
  | Manifest.PAR, Manifest.PAR => true
  | _, _ => false
  end.

(** A manifest line that passes the drive-letter test, the test of role
    [r], and the existence check. *)
Definition accepted (fs : FileSystem) (r : Manifest.role) (line : string) : bool :=
  Ascii.eqb (char0 line) "C"
  && match classify line with
     | Some r' => role_eqb r r'
     | None => false
     end
  && Manifest.opens fs (Manifest.fileFolder +:+ Manifest.extractFilename line).

(** Nothing, or white space, comes next. *)
Definition boundary (r : string) : bool :=
  match r with
  | EmptyString => true
  | String c _ => isspace c
  end.

(** A file system with one file, and a file with the given lines. *)
Definition one_file (name content : string) : FileSystem :=
  fun path => if String.eqb path name then Some content else None.

Definition text (lines : list string) : string :=
  fold_right (fun l acc => l +:+ endl +:+ acc) "" lines.

(** A file system with the manifest and some other files, all empty. *)
Definition with_manifest (manifest : list string) (others : list string)
  : FileSystem :=
  fun path =>
    if String.eqb path Manifest.FILEIN then Some (text manifest)
    else if existsb (String.eqb path) others then Some ""
    else None.

End Spec.

(* ===================================================================== *)
(** ** Further notions for the manifest loop and the reader *)
(* ===================================================================== *)

Module Notions.
Import Stream Mat Spec.

(** A manifest line that passes the drive-letter test of [main]. *)
Definition drive_line (line : string) : bool :=
  Ascii.eqb (char0 line) "C".

Definition roles : list Manifest.role :=
  [Manifest.MAT; Manifest.SUB; Manifest.JNC; Manifest.EXC; Manifest.PAR].

(** A manifest line about which [main] writes nothing to [std::cerr]: it
    fails the drive-letter test, or it is accepted for some role. *)
Definition silent (fs : FileSystem) (line : string) : bool :=
  negb (drive_line line) || existsb (fun r => accepted fs r line) roles.

(** A line of a material file that is not skipped. *)
Definition data_line (line : string) : bool := negb (skipped line).

(** The key is the first token of one of the lines that are not skipped. *)
Definition first_token_in (lines : list string) (k : string) : Prop :=
  ∃ l, l ∈ lines ∧ skipped l = false ∧ head (words l) = Some k.

(** In phase [PROPERTIES] the current id is a key: the header line that
    led to the phase stored a record under it, or found one. *)
Definition current_is_key (st : locals) : Prop :=
  lineCount st = HEADER
  ∨ (lineCount st = PROPERTIES
     ∧ is_Some (materials (this st) !! currentSubsystemId st)).

(** The lines of a file that are read as header lines: of the lines that
    are not skipped, the first, the third, and so on.  [in_header] tells
    whether the phase is [HEADER] at the start. *)
Fixpoint header_lines (in_header : bool) (lines : list string) : list string :=
  match lines with
  | [] => []
  | l :: ls =>
      if skipped l then header_lines in_header ls
      else if in_header then l :: header_lines false ls
      else header_lines true ls
  end.

End Notions.

Import Stream Mat Spec Notions.

(* ===================================================================== *)
(** ** Lines and phases *)
(* ===================================================================== *)

Section Lines.

Lemma process_line_skipped (st : locals) (line : string) :
  skipped line = true → process_line st line = st.
Proof.
  unfold skipped, process_line.
  destruct line as [|c r]; simpl; [reflexivity|].
  destruct (Ascii.eqb c "!"); [reflexivity|].
  destruct (Ascii.eqb c "("); [reflexivity|].
  destruct (Ascii.eqb c ")"); [reflexivity|].
  discriminate.
Qed.

Lemma get_string_stream (iss : istringstream) (a b : string) :
  fst (get_string iss a) = fst (get_string iss b).
Proof.
  unfold get_string. destruct (failbit iss); [reflexivity|].
  destruct (skipws (buf iss)) as [|c r]; [reflexivity|].
  destruct (read_word (String c r)). reflexivity.
Qed.

Lemma process_line_header (st : locals) (line : string) :
  skipped line = false → lineCount st = HEADER →
  process_line st line =
    let id := header_id line (currentSubsystemId st) in
    let tp := header_type line (currentType st) in
    {| this := {| materials := map_insert id (new_material id tp) (materials (this st)) |};
       currentSubsystemId := id; currentType := tp; lineCount := PROPERTIES |}.
Proof.
  unfold skipped, process_line, header_id, header_type, HEADER.
  intros Hs ->.
  destruct line as [|c r]; simpl in Hs; [discriminate|].
  cbn [char0 empty].
  destruct (Ascii.eqb c "!"); [discriminate|].
  destruct (Ascii.eqb c "("); [discriminate|].
  destruct (Ascii.eqb c ")"); [discriminate|].
  cbn [negb andb Z.eqb Pos.eqb].
  rewrite (get_string_stream (open_line (String c r)) "" (currentSubsystemId st)).
  destruct (get_string (open_line (String c r)) (currentSubsystemId st))
    as [iss1 id].
  cbn [fst snd].
  destruct (get_string iss1 (currentType st)) as [iss2 tp].
  reflexivity.
Qed.

Lemma process_line_properties (st : locals) (line : string) :
  skipped line = false → lineCount st = PROPERTIES →
  process_line st line =
    {| this := {| materials :=
                    read_properties (S (String.length line)) (open_line line)
                      (currentSubsystemId st) (materials (this st)) |};
       currentSubsystemId := currentSubsystemId st;
       currentType := currentType st; lineCount := HEADER |}.
Proof.
  unfold skipped, process_line, PROPERTIES.
  intros Hs ->.
  destruct line as [|c r]; simpl in Hs; [discriminate|].
  cbn [char0 empty].
  destruct (Ascii.eqb c "!"); [discriminate|].
  destruct (Ascii.eqb c "("); [discriminate|].
  destruct (Ascii.eqb c ")"); [discriminate|].
  reflexivity.
Qed.

End Lines.

(* ===================================================================== *)
(** ** Reading numbers: the loop ends, and what it reads *)
(* ===================================================================== *)

Section Scanning.

Lemma skipws_length (s : string) :
  String.length (skipws s) <= String.length s.
Proof.
  induction s as [|c r IH]; simpl; [lia|].
  destruct (isspace c); simpl; lia.
Qed.

Lemma scan_sign_length (s : string) :
  String.length (snd (scan_sign s)) <= String.length s.
Proof.
  destruct s as [|c r]; simpl; [lia|].
  destruct (Ascii.eqb c "+"); [simpl; lia|].
  destruct (Ascii.eqb c "-"); simpl; lia.
Qed.

Lemma scan_digits_length (s : string) :
  String.length (fst (scan_digits s)) + String.length (snd (scan_digits s))
  = String.length s.
Proof.
  induction s as [|c r IH]; simpl; [reflexivity|].
  destruct (isdigit c); [|reflexivity].
  destruct (scan_digits r) as [ds rest]. simpl in *. lia.
Qed.

Lemma scan_point_length (s : string) :
  String.length (fst (scan_point s)) + String.length (snd (scan_point s))
  <= String.length s.
Proof.
  destruct s as [|c r]; simpl; [lia|].
  destruct (Ascii.eqb c "."); [|simpl; lia].
  pose proof (scan_digits_length r). lia.
Qed.

Lemma empty_false_length (s : string) :
  empty s = false → 0 < String.length s.
Proof. destruct s; [discriminate|simpl; lia]. Qed.

Lemma append_length (a b : string) :
  String.length (a +:+ b) = String.length a + String.length b.
Proof. induction a as [|c a IH]; simpl; [reflexivity|]. now rewrite IH. Qed.

(** A number that is read takes at least one character. *)
Lemma scan_number_shorter (s : string) (d : double) (rest : string) :
  scan_number s = Some (d, rest) → String.length rest < String.length s.
Proof.
  unfold scan_number.
  pose proof (scan_sign_length s) as H1.
  destruct (scan_sign s) as [sg s1]. simpl in H1.
  pose proof (scan_digits_length s1) as H2.
  destruct (scan_digits s1) as [ip s2]. simpl in H2.
  pose proof (scan_point_length s2) as H3.
  destruct (scan_point s2) as [fp s3]. simpl in H3.
  destruct (empty (ip +:+ fp)) eqn:He; [discriminate|].
  apply empty_false_length in He. rewrite append_length in He.
  destruct s3 as [|c r].
  - destruct (convert _ _ _ _); simpl; [|discriminate].
    intros [= _ <-]. simpl in *. lia.
  - destruct (is_exp_char c).
    + pose proof (scan_sign_length r) as H4.
      destruct (scan_sign r) as [esg s4]. simpl in H4.
      pose proof (scan_digits_length s4) as H5.
      destruct (scan_digits s4) as [ed s5]. simpl in H5.
      destruct (empty ed); [discriminate|].
      destruct (convert _ _ _ _); simpl; [|discriminate].
      intros [= _ <-]. simpl in *. lia.
    + destruct (convert _ _ _ _); simpl; [|discriminate].
      intros [= _ <-]. simpl in *. lia.
Qed.

(** More fuel than the characters left changes nothing: the loop never
    stops for lack of it. *)
Lemma extract_doubles_fuel (n n' : nat) (iss : istringstream) :
  String.length (buf iss) < n → String.length (buf iss) < n' →
  extract_doubles n iss = extract_doubles n' iss.
Proof.
  revert n' iss. induction n as [|n IH]; intros n' iss Hn Hn'; [lia|].
  destruct n' as [|n']; [lia|].
  simpl. unfold get_double.
  destruct (failbit iss); [reflexivity|].
  destruct (scan_number (skipws (buf iss))) as [[d rest]|] eqn:E; [|reflexivity].
  f_equal. apply scan_number_shorter in E.
  pose proof (skipws_length (buf iss)).
  apply IH; simpl; lia.
Qed.

(** The loop on a line, one round at a time. *)
Lemma line_doubles_unfold (line : string) :
  line_doubles line =
    match scan_number (skipws line) with
    | Some (d, rest) => d :: line_doubles rest
    | None => []
    end.
Proof.
  unfold line_doubles at 1. simpl. unfold get_double. simpl.
  destruct (scan_number (skipws line)) as [[d rest]|] eqn:E; [|reflexivity].
  f_equal. unfold line_doubles.
  apply scan_number_shorter in E. pose proof (skipws_length line).
  apply extract_doubles_fuel; simpl; lia.
Qed.

(** The loop of the reader appends, one by one, the numbers read. *)
Lemma read_properties_fold (fuel : nat) (iss : istringstream) (id : string)
    (m : gmap string SubsystemMaterial) :
  read_properties fuel iss id m =
    fold_left (fun m p => push_back_at id p m) (extract_doubles fuel iss) m.
Proof.
  revert iss m. induction fuel as [|fuel IH]; intros iss m; [reflexivity|].
  simpl. destruct (get_double iss) as [iss' [p|]]; [|reflexivity].
  simpl. apply IH.
Qed.

Lemma extend_nil (r : SubsystemMaterial) : extend r [] = r.
Proof. destruct r. unfold extend. simpl. now rewrite app_nil_r. Qed.

Lemma extend_app (r : SubsystemMaterial) (ps qs : list double) :
  extend (extend r ps) qs = extend r (ps ++ qs).
Proof. unfold extend. simpl. now rewrite app_assoc. Qed.

Lemma push_all_Some (id : string) (ps : list double)
    (m : gmap string SubsystemMaterial) (r : SubsystemMaterial) :
  m !! id = Some r →
  fold_left (fun m p => push_back_at id p m) ps m = <[id := extend r ps]> m.
Proof.
  revert m r. induction ps as [|p ps IH]; intros m r Hr; simpl.
  - rewrite extend_nil. symmetry. now apply insert_id.
  - unfold push_back_at at 2. rewrite Hr.
    erewrite IH by apply lookup_insert_eq.
    rewrite insert_insert_eq. f_equal.
    change (mkMaterial (subsystemId r) (type r) (properties r ++ [p]))
      with (extend r [p]).
    apply extend_app.
Qed.

Lemma push_all_None (id : string) (ps : list double)
    (m : gmap string SubsystemMaterial) :
  m !! id = None →
  fold_left (fun m p => push_back_at id p m) ps m = m.
Proof.
  intros Hm. induction ps as [|p ps IH]; simpl; [reflexivity|].
  unfold push_back_at at 2. now rewrite Hm.
Qed.

(** A properties line, as a whole. *)
Lemma read_properties_line (line id : string)
    (m : gmap string SubsystemMaterial) :
  read_properties (S (String.length line)) (open_line line) id m =
    match m !! id with
    | Some r => <[id := extend r (line_doubles line)]> m
    | None => m
    end.
Proof.
  rewrite read_properties_fold. fold (line_doubles line).
  destruct (m !! id) as [r|] eqn:E.
  - now apply push_all_Some.
  - now apply push_all_None.
Qed.

End Scanning.

(* ===================================================================== *)
(** ** Numbers read from a line, and the tokens of the line *)
(* ===================================================================== *)

Section Tokens.

Lemma space_not_number (c : ascii) :
  isspace c = true →
  isdigit c = false ∧ Ascii.eqb c "+" = false ∧ Ascii.eqb c "-" = false
  ∧ Ascii.eqb c "." = false ∧ is_exp_char c = false.
Proof.
  destruct c as [[] [] [] [] [] [] [] []]; vm_compute; intros H;
    first [discriminate H | repeat split].
Qed.

Lemma scan_digits_app (t r : string) :
  boundary r = true →
  scan_digits (t +:+ r) = (fst (scan_digits t), snd (scan_digits t) +:+ r).
Proof.
  intros Hr. induction t as [|c t IH]; simpl.
  - destruct r as [|c r]; [reflexivity|]. simpl in *.
    apply space_not_number in Hr as (-> & _). reflexivity.
  - destruct (isdigit c); [|reflexivity].
    rewrite IH. destruct (scan_digits t). reflexivity.
Qed.

Lemma scan_sign_app (t r : string) :
  boundary r = true →
  scan_sign (t +:+ r) = (fst (scan_sign t), snd (scan_sign t) +:+ r).
Proof.
  intros Hr. destruct t as [|c t]; simpl.
  - destruct r as [|c r]; [reflexivity|]. simpl in *.
    apply space_not_number in Hr as (_ & -> & -> & _). reflexivity.
  - destruct (Ascii.eqb c "+"); [reflexivity|].
    destruct (Ascii.eqb c "-"); reflexivity.
Qed.

Lemma scan_point_app (t r : string) :
  boundary r = true →
  scan_point (t +:+ r) = (fst (scan_point t), snd (scan_point t) +:+ r).
Proof.
  intros Hr. destruct t as [|c t]; simpl.
  - destruct r as [|c r]; [reflexivity|]. simpl in *.
    apply space_not_number in Hr as (_ & _ & _ & -> & _). reflexivity.
  - destruct (Ascii.eqb c "."); [|reflexivity].
    now apply scan_digits_app.
Qed.

(** White space after a token ends a number as the end of input does. *)
Lemma scan_number_app (t r : string) :
  boundary r = true →
  scan_number (t +:+ r) =
    option_map (fun x => (fst x, snd x +:+ r)) (scan_number t).
Proof.
  intros Hr. unfold scan_number.
  rewrite (scan_sign_app t r Hr). destruct (scan_sign t) as [sg s1]. simpl.
  rewrite (scan_digits_app s1 r Hr). destruct (scan_digits s1) as [ip s2]. simpl.
  rewrite (scan_point_app s2 r Hr). destruct (scan_point s2) as [fp s3]. simpl.
  destruct (empty (ip +:+ fp)); [reflexivity|].
  destruct s3 as [|c s3]; simpl.
  - destruct r as [|c r]; simpl.
    + destruct (convert _ _ _ _); reflexivity.
    + simpl in Hr. apply space_not_number in Hr as (_ & _ & _ & _ & ->).
      destruct (convert _ _ _ _); reflexivity.
  - destruct (is_exp_char c).
    + rewrite (scan_sign_app s3 r Hr). destruct (scan_sign s3) as [esg s4]. simpl.
      rewrite (scan_digits_app s4 r Hr). destruct (scan_digits s4) as [ed s5]. simpl.
      destruct (empty ed); [reflexivity|].
      destruct (convert _ _ _ _); reflexivity.
    + destruct (convert _ _ _ _); reflexivity.
Qed.

(** A word and what follows it. *)
Lemma read_word_spec (s : string) :
  s = fst (read_word s) +:+ snd (read_word s)
  ∧ boundary (snd (read_word s)) = true.
Proof.
  induction s as [|c r [IH1 IH2]]; simpl; [split; reflexivity|].
  destruct (isspace c) eqn:Ec; simpl; [split; [reflexivity|exact Ec]|].
  destruct (read_word r) as [w rest]. cbn [fst snd] in *.
  split; [rewrite IH1 at 1; reflexivity|exact IH2].
Qed.

Lemma read_word_shorter (c : ascii) (r : string) :
  isspace c = false →
  String.length (snd (read_word (String c r))) < String.length (String c r).
Proof.
  intros Hc. pose proof (read_word_spec (String c r)) as [H _].
  apply (f_equal String.length) in H. rewrite append_length in H.
  simpl in *. rewrite Hc in *. destruct (read_word r). simpl in *. lia.
Qed.

Lemma skipws_head (s : string) (c : ascii) (r : string) :
  skipws s = String c r → isspace c = false.
Proof.
  induction s as [|c' s IH]; simpl; [discriminate|].
  destruct (isspace c') eqn:E; [exact IH|]. now intros [= <- _].
Qed.

(** The tokens of a line, one token at a time. *)
Lemma words_word (c : ascii) (r : string) :
  isspace c = false →
  words (String c r) =
    fst (read_word (String c r)) :: words (snd (read_word (String c r))).
Proof.
  revert c. induction r as [|c' r IH]; intros c Hc.
  - simpl. rewrite Hc. reflexivity.
  - change (words (String c (String c' r)))
      with (if isspace c then words (String c' r)
            else if isspace c' then String c EmptyString :: words (String c' r)
            else match words (String c' r) with
                 | w :: ws => String c w :: ws
                 | [] => [String c EmptyString]
                 end).
    change (read_word (String c (String c' r)))
      with (if isspace c then (EmptyString, String c (String c' r))
            else let '(w, rest) := read_word (String c' r) in (String c w, rest)).
    rewrite Hc. destruct (isspace c') eqn:Ec'.
    + cbn [read_word]. rewrite Ec'. reflexivity.
    + rewrite (IH c' Ec'). destruct (read_word (String c' r)). reflexivity.
Qed.

Lemma words_skipws (s : string) : words (skipws s) = words s.
Proof.
  induction s as [|c r IH]; [reflexivity|].
  simpl skipws. destruct (isspace c) eqn:Ec; [|reflexivity].
  rewrite IH. simpl. now rewrite Ec.
Qed.

Lemma words_unfold (s : string) :
  words s =
    match skipws s with
    | EmptyString => []
    | String c r =>
        fst (read_word (String c r)) :: words (snd (read_word (String c r)))
    end.
Proof.
  rewrite <- words_skipws.
  destruct (skipws s) as [|c r] eqn:E; [reflexivity|].
  apply words_word. eapply skipws_head, E.
Qed.

(** When the tokens are whole, the loop reads the numeric tokens up to the
    first token that is not a number; and only then. *)
Lemma line_doubles_words (n : nat) (line : string) :
  String.length line < n →
  (whole_tokens (words line) = true ↔
   line_doubles line = numeric_prefix (words line)).
Proof.
  revert line. induction n as [|n IH]; intros line Hn; [lia|].
  rewrite line_doubles_unfold, words_unfold.
  pose proof (skipws_length line) as Hl.
  destruct (skipws line) as [|c r] eqn:E; [simpl; tauto|].
  pose proof (read_word_spec (String c r)) as [Hw Hb].
  pose proof (read_word_shorter c r (skipws_head _ _ _ E)) as Hs.
  destruct (read_word (String c r)) as [w rest]. cbn [fst snd] in *.
  rewrite Hw, (scan_number_app w rest Hb).
  cbn [whole_tokens numeric_prefix]. unfold token_number.
  destruct (scan_number w) as [[d [|c' r']]|]; cbn [option_map fst snd].
  - simpl append. split.
    + intros H. f_equal. apply IH; [simpl in *; lia|exact H].
    + intros [= H]. apply IH; [simpl in *; lia|exact H].
  - split; discriminate.
  - tauto.
Qed.

End Tokens.

(* ===================================================================== *)
(** ** The reader, line by line *)
(* ===================================================================== *)

Section Reader.

Lemma process_line_idle (st : locals) (line : string) :
  lineCount st ≠ HEADER → lineCount st ≠ PROPERTIES →
  process_line st line = st.
Proof.
  unfold process_line, HEADER, PROPERTIES. intros H1 H2.
  apply Z.eqb_neq in H1, H2. rewrite H1, H2, !andb_false_r.
  repeat destruct (Ascii.eqb _ _); reflexivity.
Qed.

Lemma process_lines_app (st : locals) (l1 l2 : list string) :
  process_lines st (l1 ++ l2) = process_lines (process_lines st l1) l2.
Proof. apply fold_left_app. Qed.

Lemma process_lines_skipped (st : locals) (lines : list string) :
  Forall (fun l => skipped l = true) lines → process_lines st lines = st.
Proof.
  induction 1 as [|l ls Hl _ IH]; [reflexivity|].
  unfold process_lines in *. simpl. now rewrite process_line_skipped.
Qed.

Lemma map_insert_lookup (id k : string) (v : SubsystemMaterial)
    (m : gmap string SubsystemMaterial) :
  map_insert id v m !! k =
    match m !! k with
    | Some r => Some r
    | None => if decide (id = k) then Some v else None
    end.
Proof.
  unfold map_insert. destruct (m !! id) as [r0|] eqn:E.
  - destruct (m !! k) eqn:Ek; [reflexivity|].
    destruct (decide (id = k)) as [->|]; [congruence|reflexivity].
  - rewrite lookup_insert. destruct (decide (id = k)) as [->|].
    + now rewrite E.
    + now destruct (m !! k).
Qed.

(** How one line changes the record under a key: it stays, or it gets
    further properties at its end, or, when there was none, a new record
    for this key appears. *)
Lemma process_line_lookup (st : locals) (line k : string) :
  match materials (this st) !! k with
  | Some r =>
      ∃ ps, materials (this (process_line st line)) !! k = Some (extend r ps)
  | None =>
      materials (this (process_line st line)) !! k = None
      ∨ ∃ tp, materials (this (process_line st line)) !! k
              = Some (new_material k tp)
  end.
Proof.
  destruct (skipped line) eqn:Hs.
  { rewrite process_line_skipped by exact Hs.
    destruct (materials (this st) !! k) as [r|] eqn:E; [|now left].
    exists []. now rewrite extend_nil. }
  destruct (Z.eq_dec (lineCount st) HEADER) as [H1|H1].
  { rewrite (process_line_header st line Hs H1). cbn [this materials].
    rewrite map_insert_lookup.
    destruct (materials (this st) !! k) as [r|] eqn:E.
    - exists []. now rewrite extend_nil.
    - destruct (decide _) as [<-|]; [right; eauto|now left]. }
  destruct (Z.eq_dec (lineCount st) PROPERTIES) as [H2|H2].
  { rewrite (process_line_properties st line Hs H2). cbn [this materials].
    rewrite read_properties_line.
    destruct (materials (this st) !! currentSubsystemId st) as [r0|] eqn:E0.
    - rewrite lookup_insert.
      destruct (decide (currentSubsystemId st = k)) as [<-|].
      + rewrite E0. eauto.
      + destruct (materials (this st) !! k) as [r|] eqn:E; [|now left].
        exists []. now rewrite extend_nil.
    - destruct (materials (this st) !! k) as [r|] eqn:E; [|now left].
      exists []. now rewrite extend_nil. }
  rewrite process_line_idle by assumption.
  destruct (materials (this st) !! k) as [r|] eqn:E; [|now left].
  exists []. now rewrite extend_nil.
Qed.

Lemma process_line_keyed (st : locals) (line : string) :
  keyed (materials (this st)) → keyed (materials (this (process_line st line))).
Proof.
  intros Hk k r' Hr'.
  pose proof (process_line_lookup st line k) as H.
  destruct (materials (this st) !! k) as [r|] eqn:E.
  - destruct H as [ps H]. rewrite H in Hr'. injection Hr' as <-.
    simpl. now apply Hk.
  - destruct H as [H|[tp H]]; rewrite H in Hr'; [discriminate|].
    now injection Hr' as <-.
Qed.

Lemma process_lines_keyed (st : locals) (lines : list string) :
  keyed (materials (this st)) → keyed (materials (this (process_lines st lines))).
Proof.
  revert st. induction lines as [|l ls IH]; intros st H; [exact H|].
  apply IH, process_line_keyed, H.
Qed.

Lemma process_lines_extends (st : locals) (lines : list string) (k : string)
    (r : SubsystemMaterial) :
  materials (this st) !! k = Some r →
  ∃ ps, materials (this (process_lines st lines)) !! k = Some (extend r ps).
Proof.
  revert st r. induction lines as [|l ls IH]; intros st r Hr.
  - exists []. now rewrite extend_nil.
  - pose proof (process_line_lookup st l k) as H. rewrite Hr in H.
    destruct H as [ps H]. destruct (IH _ _ H) as [qs Hq].
    exists (ps ++ qs)%list. rewrite <- extend_app. exact Hq.
Qed.

Lemma keyed_empty : keyed ∅.
Proof. intros k r H. rewrite lookup_empty in H. discriminate. Qed.

End Reader.

(* ===================================================================== *)
(** ** Header lines, by their tokens *)
(* ===================================================================== *)

Section Headers.

(** [currentSubsystemId] becomes the first token of a header line, and
    keeps its value when the line has no token. *)
Lemma header_id_words (line id0 : string) :
  header_id line id0 = default id0 (head (words line)).
Proof.
  unfold header_id, get_string. cbn [open_line failbit buf].
  rewrite (words_unfold line).
  destruct (skipws line) as [|c r]; [reflexivity|].
  destruct (read_word (String c r)) as [w rest]. reflexivity.
Qed.

(** [currentType] becomes the second token of a header line, and keeps its
    value when the line has fewer than two tokens. *)
Lemma header_type_words (line tp0 : string) :
  header_type line tp0 = default tp0 (words line !! 1).
Proof.
  unfold header_type. unfold get_string at 2. cbn [open_line failbit buf].
  rewrite (words_unfold line).
  destruct (skipws line) as [|c r]; [reflexivity|].
  destruct (read_word (String c r)) as [w rest]. cbn [fst snd].
  unfold get_string. cbn [failbit buf]. rewrite (words_unfold rest).
  destruct (skipws rest) as [|c' r']; [reflexivity|].
  destruct (read_word (String c' r')) as [w' rest']. reflexivity.
Qed.

End Headers.

(* ===================================================================== *)
(** ** The manifest loop *)
(* ===================================================================== *)

Section ManifestLoop.
Import Manifest.

Variable fs : FileSystem.

(** What one line of the manifest does to the slot of a role. *)
Lemma main_line_slot (r : role) (w : world) (line : string) :
  slot r (fileManager (main_line fs w line)) =
    if accepted fs r line then store (slot r (fileManager w)) line
    else slot r (fileManager w).
Proof.
  unfold main_line, accepted, classify.
  destruct (Ascii.eqb (char0 line) "C"); [|reflexivity]. cbn [negb andb].
  destruct (found ".mat" line);
    [|destruct (found ".sub" line);
      [|destruct (found ".jun" line);
        [|destruct (found ".exc" line);
          [|destruct (found ".par" line)]]]];
    destruct (opens fs _); destruct r; reflexivity.
Qed.

Lemma fold_main_rejected (r : role) (w : world) (lines : list string) :
  Forall (fun l => accepted fs r l = false) lines →
  slot r (fileManager (fold_left (main_line fs) lines w)) = slot r (fileManager w).
Proof.
  intros H. revert w. induction H as [|l ls Hl _ IH]; intros w; [reflexivity|].
  simpl. rewrite IH, main_line_slot, Hl. reflexivity.
Qed.

(** A slot that holds a path keeps it to the end of the manifest. *)
Lemma fold_main_kept (r : role) (w : world) (lines : list string) (p : string) :
  slot r (fileManager w) = Some p →
  slot r (fileManager (fold_left (main_line fs) lines w)) = Some p.
Proof.
  revert w. induction lines as [|l ls IH]; intros w Hw; [exact Hw|].
  simpl. apply IH. rewrite main_line_slot, Hw.
  now destruct (accepted fs r l).
Qed.

End ManifestLoop.

(* ===================================================================== *)
(** ** The properties of the specification *)
(* ===================================================================== *)

(** C4: when several lines of the manifest pass the test of the same role
    and name files that exist, the slot of that role holds the first of
    them at the end of [main], whatever follows it. *)
Theorem first_accepted_path_wins (fs : FileSystem) (r : Manifest.role)
    (content : string) (pre post : list string) (first : string) :
  fs Manifest.FILEIN = Some content →
  getlines content = pre ++ first :: post →
  Forall (fun l => accepted fs r l = false) pre →
  accepted fs r first = true →
  Manifest.slot r (Manifest.manager (Manifest.main fs)) = Some first.
Proof.
  intros Hopen Hlines Hpre Hfirst.
  unfold Manifest.main. rewrite Hopen. cbn [Manifest.manager].
  unfold Manifest.main_lines. rewrite Hlines, fold_left_app. simpl.
  apply fold_main_kept.
  rewrite main_line_slot, Hfirst, fold_main_rejected by exact Hpre.
  now destruct r.
Qed.

Lemma first_accepted_path_wins_witness :
  let fs := with_manifest
              ["D:\jobs\seamInputFiles\zero.mat";
               "C:\jobs\seamInputFiles\one.mat";
               "C:\jobs\seamInputFiles\two.sub";
               "C:\jobs\seamInputFiles\three.mat"]
              ["seamInputFiles\zero.mat"; "seamInputFiles\one.mat";
               "seamInputFiles\two.sub"; "seamInputFiles\three.mat"] in
  Manifest.slot Manifest.MAT (Manifest.manager (Manifest.main fs))
  = Some "C:\jobs\seamInputFiles\one.mat".
Proof.
  intros fs.
  apply (first_accepted_path_wins fs Manifest.MAT
           (text ["D:\jobs\seamInputFiles\zero.mat";
                  "C:\jobs\seamInputFiles\one.mat";
                  "C:\jobs\seamInputFiles\two.sub";
                  "C:\jobs\seamInputFiles\three.mat"])
           ["D:\jobs\seamInputFiles\zero.mat"]
           ["C:\jobs\seamInputFiles\two.sub";
            "C:\jobs\seamInputFiles\three.mat"]
           "C:\jobs\seamInputFiles\one.mat").
  - reflexivity.
  - reflexivity.
  - repeat constructor.
  - reflexivity.
Defined.

(** C6: when the file cannot be opened, [readMatFile] writes the
    diagnostic to [std::cerr] and returns with the reader as it was, so
    that no record is added; [parse], which starts from a new reader,
    yields the empty mapping.  Nothing is thrown: the function returns. *)
Theorem open_failure_is_reported (fs : FileSystem) (filename : string)
    (rd : MatFileReader) :
  fs filename = None →
  readMatFile fs filename rd
    = (rd, "Failed to open file: " +:+ filename +:+ endl)
  ∧ parse fs filename = ∅.
Proof.
  intros Hopen. unfold parse, readMatFile. rewrite Hopen. split; reflexivity.
Qed.

Lemma open_failure_is_reported_witness :
  readMatFile (one_file "steel.mat" "") "missing.mat" fresh
    = (fresh, "Failed to open file: missing.mat" +:+ endl)
  ∧ parse (one_file "steel.mat" "") "missing.mat" = ∅.
Proof.
  apply (open_failure_is_reported (one_file "steel.mat" "") "missing.mat" fresh).
  reflexivity.
Defined.

(** X13: a comment line (first character [!]), an empty line and a
    bracket-marker line (first character a parenthesis) leave the whole
    state of the loop as it is: the phase ([lineCount]), the current id and
    type, and the mapping.  So no record is created and no token reaches a
    record, and a file with such a line anywhere is read as the file
    without it. *)
Theorem skipped_lines_change_nothing (st : locals) (line : string)
    (before after : list string) :
  skipped line = true →
  process_line st line = st
  ∧ process_lines st (before ++ line :: after)
    = process_lines st (before ++ after).
Proof.
  intros Hs. split; [now apply process_line_skipped|].
  rewrite !process_lines_app. unfold process_lines at 2. simpl.
  now rewrite process_line_skipped.
Qed.

Lemma skipped_lines_change_nothing_witness :
  process_line (enter fresh) "! mat#  mat_type" = enter fresh
  ∧ process_lines (enter fresh) (["1011 ISOELASTIC"] ++ "! mat#  mat_type" :: ["7.85e-6"])
    = process_lines (enter fresh) (["1011 ISOELASTIC"] ++ ["7.85e-6"]).
Proof.
  apply (skipped_lines_change_nothing (enter fresh) "! mat#  mat_type"
           ["1011 ISOELASTIC"] ["7.85e-6"]).
  reflexivity.
Defined.

(** C8 fails on the code for a blank line that is not empty.  The loop
    skips a line only when it has no character or begins with [!] or a
    parenthesis; a line of blanks, which the comment at the head of
    [MatFileReader.h] counts as a comment line, goes through the two
    phases like a line of data.  Read in phase [HEADER] it stores a record
    under the current id and moves the phase on; between a header line and
    its properties line it is taken for the properties line, and the
    properties line for a header. *)
Theorem blank_line_of_spaces_is_read_as_data :
  process_line (enter fresh) "   "
  = {| this := {| materials := {[ "" := mkMaterial "" "" [] ]} |};
       currentSubsystemId := ""; currentType := ""; lineCount := PROPERTIES |}
  ∧ parse (one_file "gas.mat" (text ["1 GAS"; "   "; "1.0"])) "gas.mat"
    = <[ "1.0" := mkMaterial "1.0" "GAS" [] ]> {[ "1" := mkMaterial "1" "GAS" [] ]}
  ∧ parse (one_file "gas.mat" (text ["1 GAS"; "1.0"])) "gas.mat"
    = {[ "1" := mkMaterial "1" "GAS" [mkDouble false (1 # 1)] ]}.
Proof.
  split; [|split]; vm_compute; reflexivity.
Qed.

(** C10: every record of the mapping is stored under its own
    [subsystemId]: each line of a file keeps it so, and it holds of the
    mapping [parse] returns. *)
Theorem records_are_keyed_by_their_id (fs : FileSystem) (filename : string)
    (st : locals) (line : string) :
  keyed (materials (this st)) →
  keyed (materials (this (process_line st line)))
  ∧ keyed (parse fs filename).
Proof.
  intros Hk. split; [now apply process_line_keyed|].
  unfold parse, readMatFile. destruct (fs filename) as [content|].
  - apply process_lines_keyed, keyed_empty.
  - apply keyed_empty.
Qed.

Lemma records_are_keyed_by_their_id_witness :
  keyed (materials (this (process_line (enter fresh) "1011 ISOELASTIC")))
  ∧ keyed (parse (one_file "steel.mat" (text ["1011 ISOELASTIC"; "7.85e-6"]))
             "steel.mat").
Proof.
  apply (records_are_keyed_by_their_id
           (one_file "steel.mat" (text ["1011 ISOELASTIC"; "7.85e-6"]))
           "steel.mat" (enter fresh) "1011 ISOELASTIC").
  exact keyed_empty.
Defined.

(** C1, as the code has it: a header line whose id is already a key does
    not replace the record stored under it.  The mapping is unchanged by
    the header line, so the record keeps the id and the type of the
    earlier record, and the properties line that follows appends its
    numbers to the properties of that record. *)
Theorem duplicate_id_keeps_earlier_record (st : locals) (h p id : string)
    (r : SubsystemMaterial) :
  lineCount st = HEADER → skipped h = false → skipped p = false →
  head (words h) = Some id →
  materials (this st) !! id = Some r →
  materials (this (process_line st h)) = materials (this st)
  ∧ materials (this (process_lines st [h; p]))
    = <[id := extend r (line_doubles p)]> (materials (this st)).
Proof.
  intros H1 Hh Hp Hid Hr.
  unfold process_lines. cbn [fold_left].
  rewrite (process_line_header st h Hh H1). cbv zeta.
  rewrite header_id_words, Hid. cbv [from_option Datatypes.id].
  unfold map_insert. rewrite Hr. cbn [this materials].
  split; [reflexivity|].
  rewrite process_line_properties by (assumption || reflexivity).
  cbn [this materials currentSubsystemId].
  now rewrite read_properties_line, Hr.
Qed.

Lemma duplicate_id_keeps_earlier_record_witness :
  materials (this (process_line
     (process_lines (enter fresh) ["1011 ISOELASTIC"; "7.85e-6"]) "1011 GAS"))
  = materials (this (process_lines (enter fresh) ["1011 ISOELASTIC"; "7.85e-6"]))
  ∧ materials (this (process_lines
       (process_lines (enter fresh) ["1011 ISOELASTIC"; "7.85e-6"])
       ["1011 GAS"; "1.2"]))
    = <["1011" := extend (mkMaterial "1011" "ISOELASTIC" (line_doubles "7.85e-6"))
                    (line_doubles "1.2")]>
        (materials (this (process_lines (enter fresh) ["1011 ISOELASTIC"; "7.85e-6"]))).
Proof.
  apply (duplicate_id_keeps_earlier_record
           (process_lines (enter fresh) ["1011 ISOELASTIC"; "7.85e-6"])
           "1011 GAS" "1.2" "1011"
           (mkMaterial "1011" "ISOELASTIC" (line_doubles "7.85e-6")));
    reflexivity.
Defined.

(** C1 fails as it is stated: of two records with the id [1], it is the
    earlier one whose type is kept, and the properties of both are
    there. *)
Lemma duplicate_id_later_record_does_not_replace :
  parse (one_file "dup.mat" (text ["1 GAS"; "1.0"; "1 LIQUID"; "2.0"])) "dup.mat"
    !! "1"
  = Some (mkMaterial "1" "GAS" [mkDouble false (1 # 1); mkDouble false (2 # 1)])
  ∧ parse (one_file "dup.mat" (text ["1 GAS"; "1.0"; "1 LIQUID"; "2.0"])) "dup.mat"
    !! "1"
  ≠ Some (mkMaterial "1" "LIQUID" [mkDouble false (2 # 1)]).
Proof.
  split; [vm_compute; reflexivity|]. vm_compute. discriminate.
Qed.

(** C2 fails on the code: commas do not separate tokens.  The record of
    the white-space form has the key [1011], the type [ISOELASTIC] and four
    properties.  With commas and no blanks the whole header line is the
    key, the type is empty, and one property is read; and the free-format
    example of the comment at the head of [MatFileReader.h] gives the key
    [1011,], the type [ISOELASTIC,] and one property. *)
Theorem comma_variant_gives_another_record :
  parse (one_file "steel.mat"
           (text ["1011 ISOELASTIC steel"; "7.85e-6 2.07e8 8.0e7 0.3"]))
    "steel.mat"
  = {[ "1011" :=
         mkMaterial "1011" "ISOELASTIC"
           [mkDouble false (157 # 20000000); mkDouble false (207000000 # 1);
            mkDouble false (80000000 # 1); mkDouble false (3 # 10)] ]}
  ∧ parse (one_file "steel.mat"
             (text ["1011,ISOELASTIC,steel"; "7.85e-6,2.07e8,8.0e7,0.3"]))
      "steel.mat"
    = {[ "1011,ISOELASTIC,steel" :=
           mkMaterial "1011,ISOELASTIC,steel" ""
             [mkDouble false (157 # 20000000)] ]}
  ∧ parse (one_file "steel.mat"
             (text ["1011, ISOELASTIC, steeL";
                    " 7.85e-6,2.07e8,8.0e7, 0.3, #1061,, panel_b"]))
      "steel.mat"
    = {[ "1011," :=
           mkMaterial "1011," "ISOELASTIC," [mkDouble false (157 # 20000000)] ]}.
Proof.
  split; [|split]; vm_compute; reflexivity.
Qed.

(** C5, as the code has it: [readMatFile] starts from the mapping the
    reader already holds.  A record that is there before the call is there
    after it, with the same id and type, and with its earlier properties
    at the start of its properties; and on a reader that holds no record
    the call gives what [parse] gives, which depends on the file alone. *)
Theorem parse_extends_the_mapping (fs : FileSystem) (filename : string)
    (rd : MatFileReader) :
  (materials rd = ∅ →
   materials (fst (readMatFile fs filename rd)) = parse fs filename)
  ∧ (∀ k r, materials rd !! k = Some r →
       ∃ ps, materials (fst (readMatFile fs filename rd)) !! k
             = Some (extend r ps)).
Proof.
  split.
  - intros He. destruct rd as [m]. simpl in He. subst m. reflexivity.
  - intros k r Hr. unfold readMatFile.
    destruct (fs filename) as [content|]; cbn [fst].
    + now apply process_lines_extends.
    + exists []. now rewrite extend_nil.
Qed.

Lemma parse_extends_the_mapping_witness :
  materials (fst (readMatFile (one_file "gas.mat" (text ["1 GAS"; "1.0"]))
                    "gas.mat" fresh))
  = parse (one_file "gas.mat" (text ["1 GAS"; "1.0"])) "gas.mat"
  ∧ ∃ ps,
      materials (fst (readMatFile (one_file "gas.mat" (text ["1 GAS"; "1.0"]))
                        "gas.mat"
                        (mkReader {[ "1" := mkMaterial "1" "AIR" [] ]})))
        !! "1"
      = Some (extend (mkMaterial "1" "AIR" []) ps).
Proof.
  split.
  - apply (proj1 (parse_extends_the_mapping
                    (one_file "gas.mat" (text ["1 GAS"; "1.0"])) "gas.mat" fresh)).
    reflexivity.
  - apply (proj2 (parse_extends_the_mapping
                    (one_file "gas.mat" (text ["1 GAS"; "1.0"])) "gas.mat"
                    (mkReader {[ "1" := mkMaterial "1" "AIR" [] ]}))).
    reflexivity.
Defined.

(** C5 fails as it is stated: a second call on the same reader and the
    same file does not give the mapping of a single call on a new reader;
    the record has its property twice. *)
Lemma second_parse_differs_from_fresh_parse :
  materials (fst (readMatFile (one_file "gas.mat" (text ["1 GAS"; "1.0"]))
                    "gas.mat"
                    (fst (readMatFile (one_file "gas.mat" (text ["1 GAS"; "1.0"]))
                            "gas.mat" fresh))))
    !! "1"
  = Some (mkMaterial "1" "GAS" [mkDouble false (1 # 1); mkDouble false (1 # 1)])
  ∧ parse (one_file "gas.mat" (text ["1 GAS"; "1.0"])) "gas.mat" !! "1"
    = Some (mkMaterial "1" "GAS" [mkDouble false (1 # 1)])
  ∧ materials (fst (readMatFile (one_file "gas.mat" (text ["1 GAS"; "1.0"]))
                      "gas.mat"
                      (fst (readMatFile (one_file "gas.mat" (text ["1 GAS"; "1.0"]))
                              "gas.mat" fresh))))
    ≠ parse (one_file "gas.mat" (text ["1 GAS"; "1.0"])) "gas.mat".
Proof.
  split; [vm_compute; reflexivity|]. split; [vm_compute; reflexivity|].
  intros H. apply (f_equal (fun m => m !! "1")) in H. vm_compute in H.
  discriminate H.
Qed.

Section TypeVariable.

(** [currentType] holds the empty string as long as no header line has a
    second token. *)
Lemma currentType_stays_empty (st : locals) (lines : list string) :
  lineCount st = HEADER ∨ lineCount st = PROPERTIES →
  currentType st = "" →
  Forall (fun l => words l !! 1 = None)
    (header_lines (lineCount st =? HEADER)%Z lines) →
  currentType (process_lines st lines) = "".
Proof.
  revert st. induction lines as [|l ls IH]; intros st Hph Ht Hall; [exact Ht|].
  change (process_lines st (l :: ls)) with (process_lines (process_line st l) ls).
  cbn [header_lines] in Hall. destruct (skipped l) eqn:Hs.
  { rewrite process_line_skipped by exact Hs. now apply IH. }
  destruct Hph as [H1|H2].
  - rewrite H1 in Hall. cbn in Hall. inversion Hall as [|? ? Hl Hrest]; subst.
    apply IH; rewrite (process_line_header st l Hs H1); cbv zeta;
      cbn [lineCount currentType].
    + now right.
    + rewrite header_type_words, Hl. exact Ht.
    + exact Hrest.
  - rewrite H2 in Hall. cbn in Hall.
    apply IH; rewrite (process_line_properties st l Hs H2);
      cbn [lineCount currentType].
    + now left.
    + exact Ht.
    + exact Hall.
Qed.

End TypeVariable.

(** C7, as the code has it: a header line with one token gives no error
    and leaves a record under that token.  When the token is not a key
    yet, the record is new and without properties, and its type is what
    [currentType] holds: the empty string when no header line read before
    in the same call had a second token. *)
Theorem header_with_one_token (st : locals) (h id : string) :
  lineCount st = HEADER → skipped h = false → words h = [id] →
  is_Some (materials (this (process_line st h)) !! id)
  ∧ (materials (this st) !! id = None →
     materials (this (process_line st h))
     = <[id := mkMaterial id (currentType st) []]> (materials (this st)))
  ∧ (currentType st = "" → materials (this st) !! id = None →
     materials (this (process_line st h))
     = <[id := mkMaterial id "" []]> (materials (this st)))
  ∧ (∀ rd before,
       st = process_lines (enter rd) before →
       Forall (fun l => words l !! 1 = None) (header_lines true before) →
       currentType st = "").
Proof.
  intros H1 Hh Hw.
  rewrite (process_line_header st h Hh H1). cbv zeta.
  rewrite header_id_words, header_type_words, Hw.
  cbv [from_option Datatypes.id head]. cbn [lookup list_lookup this materials].
  assert (materials (this st) !! id = None →
          map_insert id (new_material id (currentType st)) (materials (this st))
          = <[id := mkMaterial id (currentType st) []]> (materials (this st)))
    as Hnew.
  { intros Hn. unfold map_insert. now rewrite Hn. }
  split; [|split; [exact Hnew|split]].
  - rewrite map_insert_lookup. destruct (materials (this st) !! id); [eauto|].
    rewrite decide_True by reflexivity. eauto.
  - intros Ht Hn. rewrite (Hnew Hn), Ht. reflexivity.
  - intros rd before -> Hall.
    apply currentType_stays_empty; [now left|reflexivity|exact Hall].
Qed.

Lemma header_with_one_token_witness :
  is_Some (materials (this (process_line (enter fresh) "1011")) !! "1011")
  ∧ (materials (this (enter fresh)) !! "1011" = None →
     materials (this (process_line (enter fresh) "1011"))
     = <["1011" := mkMaterial "1011" (currentType (enter fresh)) []]>
         (materials (this (enter fresh))))
  ∧ (currentType (enter fresh) = "" → materials (this (enter fresh)) !! "1011" = None →
     materials (this (process_line (enter fresh) "1011"))
     = <["1011" := mkMaterial "1011" "" []]> (materials (this (enter fresh))))
  ∧ (∀ rd before,
       enter fresh = process_lines (enter rd) before →
       Forall (fun l => words l !! 1 = None) (header_lines true before) →
       currentType (enter fresh) = "").
Proof.
  apply (header_with_one_token (enter fresh) "1011" "1011"); reflexivity.
Defined.

(** C7 fails as it is stated: after a header line with a type, a header
    line with one token gets that type, not the empty string. *)
Lemma header_with_one_token_takes_earlier_type :
  parse (one_file "two.mat" (text ["1 GAS"; "1.0"; "2"])) "two.mat" !! "2"
  = Some (mkMaterial "2" "GAS" [])
  ∧ parse (one_file "two.mat" (text ["1 GAS"; "1.0"; "2"])) "two.mat" !! "2"
    ≠ Some (mkMaterial "2" "" []).
Proof.
  split; [vm_compute; reflexivity|]. vm_compute. discriminate.
Qed.

(** C9, as the code has it: when the last line that is not skipped is a
    header line, the call returns and the mapping has a record under the
    first token of that line.  Its properties are empty when that token
    was not a key before the line; a record stored earlier under the same
    id stays as it is. *)
Theorem trailing_header_line (rd : MatFileReader) (before after : list string)
    (h id : string) :
  lineCount (process_lines (enter rd) before) = HEADER →
  skipped h = false → head (words h) = Some id →
  Forall (fun l => skipped l = true) after →
  is_Some (materials (this (process_lines (enter rd) (before ++ h :: after))) !! id)
  ∧ (materials (this (process_lines (enter rd) before)) !! id = None →
     ∃ tp, materials (this (process_lines (enter rd) (before ++ h :: after))) !! id
           = Some (mkMaterial id tp [])).
Proof.
  intros H1 Hh Hid Hafter.
  rewrite process_lines_app.
  change (process_lines ?s (h :: after))
    with (process_lines (process_line s h) after).
  rewrite (process_lines_skipped _ after Hafter).
  rewrite (process_line_header _ h Hh H1). cbv zeta.
  rewrite header_id_words, Hid. cbv [from_option Datatypes.id].
  cbn [this materials]. rewrite map_insert_lookup.
  rewrite decide_True by reflexivity.
  destruct (materials (this (process_lines (enter rd) before)) !! id).
  - split; [eauto|discriminate].
  - split; [eauto|]. intros _. eexists. reflexivity.
Qed.

Lemma trailing_header_line_witness :
  is_Some (materials (this (process_lines (enter fresh)
             (["1 GAS"; "1.0"] ++ "2 LIQUID" :: ["! end"; ""; "))"]))) !! "2")
  ∧ (materials (this (process_lines (enter fresh) ["1 GAS"; "1.0"])) !! "2" = None →
     ∃ tp, materials (this (process_lines (enter fresh)
             (["1 GAS"; "1.0"] ++ "2 LIQUID" :: ["! end"; ""; "))"]))) !! "2"
           = Some (mkMaterial "2" tp [])).
Proof.
  apply (trailing_header_line fresh ["1 GAS"; "1.0"] ["! end"; ""; "))"]
           "2 LIQUID" "2"); try reflexivity.
  repeat constructor.
Defined.

(** C9 fails as it is stated: when the id of the trailing header line is
    the id of an earlier record, the record under it has the properties of
    the earlier record. *)
Lemma trailing_header_with_known_id_keeps_properties :
  parse (one_file "gas.mat" (text ["1 GAS"; "1.0"; "1 GAS"])) "gas.mat" !! "1"
  = Some (mkMaterial "1" "GAS" [mkDouble false (1 # 1)])
  ∧ properties <$>
      parse (one_file "gas.mat" (text ["1 GAS"; "1.0"; "1 GAS"])) "gas.mat" !! "1"
    ≠ Some [].
Proof.
  split; [vm_compute; reflexivity|]. vm_compute. discriminate.
Qed.

(** C3, as the code has it: the loop reads a number from the start of what
    is left of the line, so it can take part of a token.  When the tokens
    are whole (every token before the first one that starts no number is a
    number from end to end), the properties line appends to the record of
    its header the numeric tokens of the line, in order, up to the first
    token that is not a number; the rest of the line is dropped, and the
    phase is [HEADER] again.  For an id that was not a key these are all
    the properties of the record. *)
Theorem properties_are_the_numeric_tokens (st : locals) (h p id : string) :
  lineCount st = HEADER → skipped h = false → skipped p = false →
  head (words h) = Some id →
  whole_tokens (words p) = true →
  lineCount (process_lines st [h; p]) = HEADER
  ∧ (∃ r0, materials (this (process_line st h)) !! id = Some r0
          ∧ materials (this (process_lines st [h; p])) !! id
            = Some (extend r0 (numeric_prefix (words p))))
  ∧ (materials (this st) !! id = None →
     materials (this (process_lines st [h; p])) !! id
     = Some (mkMaterial id (header_type h (currentType st))
               (numeric_prefix (words p)))).
Proof.
  intros H1 Hh Hp Hid Hwhole.
  apply (line_doubles_words (S (String.length p))) in Hwhole; [|lia].
  unfold process_lines. cbn [fold_left].
  rewrite (process_line_header st h Hh H1). cbv zeta.
  rewrite header_id_words, Hid. cbv [from_option Datatypes.id].
  rewrite process_line_properties by (assumption || reflexivity).
  cbn [this materials currentSubsystemId lineCount].
  rewrite read_properties_line, <- Hwhole.
  set (tp := header_type h (currentType st)).
  pose proof (map_insert_lookup id id (new_material id tp) (materials (this st)))
    as Hl.
  rewrite decide_True in Hl by reflexivity.
  split; [reflexivity|]. split.
  - destruct (materials (this st) !! id) as [r|] eqn:E; rewrite Hl.
    + exists r. split; [reflexivity|]. apply lookup_insert_eq.
    + exists (new_material id tp). split; [reflexivity|]. apply lookup_insert_eq.
  - intros Hn. rewrite Hn in Hl. rewrite Hl. apply lookup_insert_eq.
Qed.

Lemma properties_are_the_numeric_tokens_witness :
  lineCount (process_lines (enter fresh)
               ["1011 ISOELASTIC steel"; "7.85e-6 2.07e8 8.0e7 0.3 #1061 panel_b"])
  = HEADER
  ∧ (∃ r0, materials (this (process_line (enter fresh) "1011 ISOELASTIC steel"))
             !! "1011" = Some r0
          ∧ materials (this (process_lines (enter fresh)
               ["1011 ISOELASTIC steel"; "7.85e-6 2.07e8 8.0e7 0.3 #1061 panel_b"]))
              !! "1011"
            = Some (extend r0
                      (numeric_prefix (words "7.85e-6 2.07e8 8.0e7 0.3 #1061 panel_b"))))
  ∧ (materials (this (enter fresh)) !! "1011" = None →
     materials (this (process_lines (enter fresh)
        ["1011 ISOELASTIC steel"; "7.85e-6 2.07e8 8.0e7 0.3 #1061 panel_b"]))
       !! "1011"
     = Some (mkMaterial "1011"
               (header_type "1011 ISOELASTIC steel" (currentType (enter fresh)))
               (numeric_prefix (words "7.85e-6 2.07e8 8.0e7 0.3 #1061 panel_b")))).
Proof.
  apply (properties_are_the_numeric_tokens (enter fresh)
           "1011 ISOELASTIC steel" "7.85e-6 2.07e8 8.0e7 0.3 #1061 panel_b"
           "1011"); reflexivity.
Defined.

(** C3 fails as it is stated: from the line [1.5z 2] the loop reads 1.5 out
    of the token [1.5z] and stops at [z].  The numeric tokens of the line
    up to the first token that is not a number are none, as [1.5z] is not
    a number; and if a token that starts with a number counts as one, they
    are 1.5 and 2.  The properties are neither. *)
Lemma part_of_a_token_is_read :
  properties <$>
    parse (one_file "gas.mat" (text ["1 GAS"; "1.5z 2"])) "gas.mat" !! "1"
  = Some [mkDouble false (3 # 2)]
  ∧ numeric_prefix (words "1.5z 2") = []
  ∧ numeric_prefix_lax (words "1.5z 2")
    = [mkDouble false (3 # 2); mkDouble false (2 # 1)]
  ∧ properties <$>
      parse (one_file "gas.mat" (text ["1 GAS"; "1.5z 2"])) "gas.mat" !! "1"
    ≠ Some (numeric_prefix (words "1.5z 2"))
  ∧ properties <$>
      parse (one_file "gas.mat" (text ["1 GAS"; "1.5z 2"])) "gas.mat" !! "1"
    ≠ Some (numeric_prefix_lax (words "1.5z 2")).
Proof.
  repeat (split; [vm_compute; reflexivity|]).
  split; vm_compute; discriminate.
Qed.

(* ===================================================================== *)
(** ** [extractFilename] and the manifest loop, further *)
(* ===================================================================== *)

Section Paths.
Import Manifest.

Lemma substr_cons (c : ascii) (s : string) (n : nat) :
  substr (String c s) (S n) = substr s n.
Proof. reflexivity. Qed.

Lemma substr_0 (s : string) : substr s 0 = s.
Proof.
  unfold substr. rewrite Nat.sub_0_r.
  induction s as [|c s IH]; [reflexivity|].
  simpl. now rewrite IH.
Qed.

Lemma substring_empty (n m : nat) : substring n m "" = "".
Proof. destruct n, m; reflexivity. Qed.

(** What follows position [n] is [m] characters and what follows them. *)
Lemma substr_split (s : string) (n m : nat) :
  substr s n = substring n m s +:+ substr s (n + m).
Proof.
  revert n m. induction s as [|c s IH]; intros n m.
  - unfold substr. now rewrite !substring_empty.
  - destruct n as [|n].
    + destruct m as [|m]; [reflexivity|].
      change (substr (String c s) (0 + S m)) with (substr s (0 + m)).
      change (substring 0 (S m) (String c s)) with (String c (substring 0 m s)).
      rewrite substr_0. change (String c s = String c (substring 0 m s +:+ substr s (0 + m))).
      now rewrite <- IH, substr_0.
    + change (substr s n = substring n m s +:+ substr s (n + m)). apply IH.
Qed.

Lemma substring_0_length (s : string) (n : nat) :
  String.length (substring 0 n s) <= n.
Proof.
  revert n. induction s as [|c s IH]; intros [|n]; simpl; try lia.
  specialize (IH n). lia.
Qed.

End Paths.

(** X1: [extractFilename] returns the empty string when the folder name
    does not occur in the path.  When it occurs, the path is what stands
    before its first occurrence, the folder name, and the string
    returned. *)
Theorem extractFilename_splits_the_path (fullPath : string) :
  (Manifest.found Manifest.fileFolder fullPath = false →
   Manifest.extractFilename fullPath = "")
  ∧ (Manifest.found Manifest.fileFolder fullPath = true →
     ∃ before,
       fullPath = before +:+ Manifest.fileFolder
                  +:+ Manifest.extractFilename fullPath
       ∧ ∀ p, p < String.length before →
           substring p (String.length Manifest.fileFolder) fullPath
           ≠ Manifest.fileFolder).
Proof.
  unfold Manifest.found, Manifest.extractFilename.
  change ("seamInputFiles" +:+ Manifest.backslash) with Manifest.fileFolder.
  destruct (String.index 0 Manifest.fileFolder fullPath) as [pos|] eqn:E.
  - split; [discriminate|]. intros _.
    exists (substring 0 pos fullPath). split.
    + rewrite <- (index_correct1 _ _ _ _ E) at 1.
      rewrite <- substr_split.
      rewrite <- (substr_0 fullPath) at 1.
      apply (substr_split fullPath 0 pos).
    + intros p Hp. pose proof (substring_0_length fullPath pos).
      apply (index_correct2 _ _ _ _ E); lia.
  - split; [reflexivity|discriminate].
Qed.

Lemma extractFilename_splits_the_path_witness :
  Manifest.extractFilename "steel.mat" = ""
  ∧ ∃ before,
      "C:\jobs\seamInputFiles\steel.mat"
      = before +:+ Manifest.fileFolder
        +:+ Manifest.extractFilename "C:\jobs\seamInputFiles\steel.mat"
      ∧ ∀ p, p < String.length before →
          substring p (String.length Manifest.fileFolder)
            "C:\jobs\seamInputFiles\steel.mat"
          ≠ Manifest.fileFolder.
Proof.
  split.
  - apply (proj1 (extractFilename_splits_the_path "steel.mat")). reflexivity.
  - apply (proj2 (extractFilename_splits_the_path
                    "C:\jobs\seamInputFiles\steel.mat")). reflexivity.
Defined.

Section ManifestRun.
Import Manifest.

Variable fs : FileSystem.

Lemma main_line_other_drive (w : world) (line : string) :
  drive_line line = false → main_line fs w line = w.
Proof.
  unfold drive_line, main_line. now intros ->.
Qed.

Lemma silent_cases (line : string) :
  silent fs line =
    negb (drive_line line)
    || (match classify line with Some _ => true | None => false end
        && opens fs (fileFolder +:+ extractFilename line)).
Proof.
  unfold silent, roles, accepted, drive_line. cbn [existsb].
  destruct (Ascii.eqb (char0 line) "C"); [|reflexivity].
  destruct (classify line) as [[]|]; destruct (opens fs _); reflexivity.
Qed.

(** What one line of the manifest does to [std::cerr]. *)
Lemma main_line_cerr (w : world) (line : string) :
  if silent fs line then cerr (main_line fs w line) = cerr w
  else ∃ msg, cerr (main_line fs w line) = cerr w +:+ msg +:+ line +:+ Mat.endl.
Proof.
  rewrite silent_cases. unfold main_line, classify, drive_line.
  destruct (Ascii.eqb (char0 line) "C"); [|reflexivity]. cbn [negb orb].
  destruct (found ".mat" line);
    [|destruct (found ".sub" line);
      [|destruct (found ".jun" line);
        [|destruct (found ".exc" line);
          [|destruct (found ".par" line)]]]];
    try destruct (opens fs _); cbn [andb]; try reflexivity;
    unfold complain; cbn [cerr]; eauto.
Qed.

Lemma append_nonempty (a b : string) :
  0 < String.length b → a +:+ b ≠ "".
Proof.
  intros Hb H. apply (f_equal String.length) in H.
  rewrite append_length in H. simpl in H. lia.
Qed.

Lemma fold_main_cerr_nonempty (w : world) (lines : list string) :
  cerr w ≠ "" → cerr (fold_left (main_line fs) lines w) ≠ "".
Proof.
  revert w. induction lines as [|l ls IH]; intros w Hw; [exact Hw|].
  cbn [fold_left]. apply IH.
  pose proof (main_line_cerr w l) as H. destruct (silent fs l).
  - now rewrite H.
  - destruct H as [msg ->]. intros H.
    apply (f_equal String.length) in H. rewrite append_length in H.
    destruct (cerr w); [congruence|simpl in H; lia].
Qed.

End ManifestRun.

(** X2: [main] passes over the lines of the manifest that do not begin
    with [C]: the manager and [std::cerr] at the end are those of the
    manifest without these lines. *)
Theorem main_passes_over_other_drives (fs : FileSystem) (lines : list string) :
  Manifest.main_lines fs lines
  = Manifest.main_lines fs (filter (fun l => drive_line l = true) lines).
Proof.
  unfold Manifest.main_lines.
  generalize {| Manifest.fileManager := Manifest.new_manager; Manifest.cerr := "" |}.
  induction lines as [|l ls IH]; intros w; [reflexivity|].
  rewrite filter_cons. destruct (decide (drive_line l = true)) as [Hd|Hd].
  - cbn [fold_left]. apply IH.
  - apply not_true_is_false in Hd. cbn [fold_left].
    rewrite main_line_other_drive by exact Hd. apply IH.
Qed.

(** X3: [main] writes nothing to [std::cerr] exactly when every line of
    the manifest that begins with [C] holds one of the five extension
    markers and names a file that opens. *)
Theorem main_is_silent_iff_all_accepted (fs : FileSystem) (lines : list string) :
  Manifest.cerr (Manifest.main_lines fs lines) = ""
  ↔ Forall (fun l => silent fs l = true) lines.
Proof.
  unfold Manifest.main_lines.
  assert (∀ w, Manifest.cerr w = "" →
            (Manifest.cerr (fold_left (Manifest.main_line fs) lines w) = ""
             ↔ Forall (fun l => silent fs l = true) lines)) as H;
    [|now apply H].
  induction lines as [|l ls IH]; intros w Hw.
  - split; [constructor|intros _; exact Hw].
  - cbn [fold_left]. pose proof (main_line_cerr fs w l) as Hl.
    destruct (silent fs l) eqn:Hs.
    + rewrite IH by congruence. split.
      * intros H. now constructor.
      * intros H. now inversion H.
    + destruct Hl as [msg Hl]. split.
      * intros H. exfalso. revert H. apply fold_main_cerr_nonempty.
        rewrite Hl, Hw. apply append_nonempty.
        rewrite !append_length. simpl. lia.
      * intros H. inversion H; congruence.
Qed.

(* ===================================================================== *)
(** ** The reader, further *)
(* ===================================================================== *)

Section Phases.

Lemma process_line_phase (st : locals) (line : string) :
  lineCount st = HEADER ∨ lineCount st = PROPERTIES →
  lineCount (process_line st line) =
    if skipped line then lineCount st
    else if (lineCount st =? HEADER)%Z then PROPERTIES else HEADER.
Proof.
  intros H. destruct (skipped line) eqn:Hs.
  - now rewrite process_line_skipped.
  - destruct H as [H|H]; rewrite H.
    + now rewrite (process_line_header st line Hs H).
    + now rewrite (process_line_properties st line Hs H).
Qed.

Lemma process_lines_phase (st : locals) (lines : list string) :
  lineCount st = HEADER ∨ lineCount st = PROPERTIES →
  lineCount (process_lines st lines) =
    if Nat.even (length (filter (fun l => data_line l = true) lines))
    then lineCount st
    else if (lineCount st =? HEADER)%Z then PROPERTIES else HEADER.
Proof.
  revert st. induction lines as [|l ls IH]; intros st H; [reflexivity|].
  change (process_lines st (l :: ls)) with (process_lines (process_line st l) ls).
  pose proof (process_line_phase st l H) as Hl.
  rewrite filter_cons.
  destruct (decide (data_line l = true)) as [Hd|Hd]; unfold data_line in Hd.
  - apply negb_true_iff in Hd. rewrite Hd in Hl. cbn [length].
    rewrite Nat.even_succ, <- Nat.negb_even.
    rewrite IH by (rewrite Hl; destruct H as [-> | ->]; auto).
    rewrite Hl.
    destruct (Nat.even _); destruct H as [-> | ->]; reflexivity.
  - apply not_true_is_false, negb_false_iff in Hd. rewrite Hd in Hl.
    rewrite IH by (rewrite Hl; exact H). now rewrite Hl.
Qed.

Lemma process_line_current (st : locals) (line : string) :
  current_is_key st → current_is_key (process_line st line).
Proof.
  intros H. destruct (skipped line) eqn:Hs.
  - now rewrite process_line_skipped.
  - destruct H as [H|[H _]].
    + right. rewrite (process_line_header st line Hs H). cbv zeta.
      cbn [lineCount this materials currentSubsystemId].
      split; [reflexivity|]. rewrite map_insert_lookup.
      rewrite decide_True by reflexivity.
      destruct (materials (this st) !! _); eauto.
    + left. now rewrite (process_line_properties st line Hs H).
Qed.

Lemma process_lines_current (st : locals) (lines : list string) :
  current_is_key st → current_is_key (process_lines st lines).
Proof.
  revert st. induction lines as [|l ls IH]; intros st H; [exact H|].
  apply IH, process_line_current, H.
Qed.

End Phases.

(** X5: the phase after any lines of a file is given by the number of
    lines that are not skipped: [HEADER] when it is even, [PROPERTIES] when
    it is odd.  (A record with its properties line missing therefore
    shifts every record after it.) *)
Theorem phase_is_parity_of_data_lines (rd : MatFileReader) (lines : list string) :
  lineCount (process_lines (enter rd) lines) =
    if Nat.even (length (filter (fun l => data_line l = true) lines))
    then HEADER else PROPERTIES.
Proof.
  rewrite process_lines_phase by (left; reflexivity). reflexivity.
Qed.

(** X6: the test [it != materials.end()] in the loop over the numbers
    never fails: when a properties line is read, a record is stored under
    the current id, and every number read from the line is appended to
    it. *)
Theorem numbers_read_are_stored (rd : MatFileReader) (before : list string)
    (p : string) :
  lineCount (process_lines (enter rd) before) = PROPERTIES →
  skipped p = false →
  ∃ r,
    materials (this (process_lines (enter rd) before))
      !! currentSubsystemId (process_lines (enter rd) before) = Some r
    ∧ materials (this (process_lines (enter rd) (before ++ [p])))
      = <[currentSubsystemId (process_lines (enter rd) before)
            := extend r (line_doubles p)]>
          (materials (this (process_lines (enter rd) before))).
Proof.
  intros H2 Hp.
  destruct (process_lines_current (enter rd) before) as [H|[_ [r Hr]]].
  { left. reflexivity. }
  { rewrite H in H2. discriminate. }
  exists r. split; [exact Hr|].
  rewrite process_lines_app.
  change (process_lines ?s [p]) with (process_line s p).
  rewrite (process_line_properties _ p Hp H2). cbn [this materials].
  now rewrite read_properties_line, Hr.
Qed.

Lemma numbers_read_are_stored_witness :
  ∃ r,
    materials (this (process_lines (enter fresh) ["! steel"; "1011 ISOELASTIC"]))
      !! currentSubsystemId (process_lines (enter fresh) ["! steel"; "1011 ISOELASTIC"])
    = Some r
    ∧ materials (this (process_lines (enter fresh)
                         (["! steel"; "1011 ISOELASTIC"] ++ ["7.85e-6 2.07e8"])))
      = <[currentSubsystemId (process_lines (enter fresh) ["! steel"; "1011 ISOELASTIC"])
            := extend r (line_doubles "7.85e-6 2.07e8")]>
          (materials (this (process_lines (enter fresh) ["! steel"; "1011 ISOELASTIC"]))).
Proof.
  apply (numbers_read_are_stored fresh ["! steel"; "1011 ISOELASTIC"]
           "7.85e-6 2.07e8"); reflexivity.
Defined.

Section Keys.

Lemma first_token_in_app_l (l1 l2 : list string) (k : string) :
  first_token_in l1 k → first_token_in (l1 ++ l2) k.
Proof.
  intros (l & Hl & H). exists l. split; [|exact H].
  apply elem_of_app. now left.
Qed.

(** The current id and the keys come from the reader or from the lines
    read. *)
Lemma process_lines_keys (rd : MatFileReader) (lines : list string) :
  (currentSubsystemId (process_lines (enter rd) lines) = ""
   ∨ first_token_in lines (currentSubsystemId (process_lines (enter rd) lines)))
  ∧ ∀ k, is_Some (materials (this (process_lines (enter rd) lines)) !! k) →
      is_Some (materials rd !! k) ∨ k = "" ∨ first_token_in lines k.
Proof.
  induction lines as [|l ls [IHc IHk]] using rev_ind.
  { split; [now left|]. intros k Hk. now left. }
  rewrite process_lines_app.
  change (process_lines ?s [l]) with (process_line s l).
  set (st := process_lines (enter rd) ls) in *.
  assert (∀ k, k = "" ∨ first_token_in ls k →
               k = "" ∨ first_token_in (ls ++ [l]) k) as Hmono.
  { intros k [H|H]; [now left|right; now apply first_token_in_app_l]. }
  assert (∀ k, is_Some (materials (this st) !! k) →
               is_Some (materials rd !! k) ∨ k = ""
               ∨ first_token_in (ls ++ [l]) k) as Hold.
  { intros k Hk. destruct (IHk k Hk) as [H|H]; [now left|right; now apply Hmono]. }
  destruct (skipped l) eqn:Hs.
  { rewrite process_line_skipped by exact Hs. split; [now apply Hmono|exact Hold]. }
  assert (∀ id, head (words l) = Some id → first_token_in (ls ++ [l]) id) as Hnew.
  { intros id Hid. exists l. split; [|now split].
    apply elem_of_app. right. now apply list_elem_of_singleton. }
  destruct (Z.eq_dec (lineCount st) HEADER) as [H1|H1].
  { rewrite (process_line_header st l Hs H1). cbv zeta.
    cbn [this materials currentSubsystemId]. rewrite header_id_words.
    assert (default (currentSubsystemId st) (head (words l)) = ""
            ∨ first_token_in (ls ++ [l])
                (default (currentSubsystemId st) (head (words l)))) as Hcur.
    { destruct (head (words l)) as [id0|] eqn:Hid; cbn [default from_option].
      - right. now apply Hnew.
      - now apply Hmono. }
    split; [exact Hcur|].
    intros k Hk. rewrite map_insert_lookup in Hk.
    destruct (materials (this st) !! k) as [r|] eqn:E.
    - apply Hold. rewrite E. eauto.
    - destruct (decide _) as [<-|]; [|now destruct Hk]. now right. }
  destruct (Z.eq_dec (lineCount st) PROPERTIES) as [H2|H2].
  { rewrite (process_line_properties st l Hs H2).
    cbn [this materials currentSubsystemId]. split; [now apply Hmono|].
    intros k Hk. rewrite read_properties_line in Hk. apply Hold.
    destruct (materials (this st) !! currentSubsystemId st) as [r0|] eqn:E0;
      [|exact Hk].
    rewrite lookup_insert in Hk.
    destruct (decide (currentSubsystemId st = k)) as [<-|]; [|exact Hk].
    rewrite E0. eauto. }
  rewrite process_line_idle by assumption. split; [now apply Hmono|exact Hold].
Qed.

End Keys.

(** X7: [readMatFile] stores no record under a key of its own making: a
    key of the mapping after the call was a key before it, or is the first
    token of a line of the file that is not skipped, or is the empty
    string (the initial value of [currentSubsystemId]). *)
Theorem keys_come_from_the_file (fs : FileSystem) (filename content : string)
    (rd : MatFileReader) (k : string) :
  fs filename = Some content →
  is_Some (materials (fst (readMatFile fs filename rd)) !! k) →
  is_Some (materials rd !! k) ∨ k = ""
  ∨ first_token_in (getlines content) k.
Proof.
  intros Hopen. unfold readMatFile. rewrite Hopen. cbn [fst].
  apply process_lines_keys.
Qed.

Lemma keys_come_from_the_file_witness :
  is_Some (materials fresh !! "1011") ∨ "1011" = ""
  ∨ first_token_in (getlines (text ["1011 ISOELASTIC"; "7.85e-6"])) "1011".
Proof.
  apply (keys_come_from_the_file
           (one_file "steel.mat" (text ["1011 ISOELASTIC"; "7.85e-6"]))
           "steel.mat" (text ["1011 ISOELASTIC"; "7.85e-6"]) fresh "1011").
  - reflexivity.
  - vm_compute. eauto.
Defined.

Section HeaderTokens.

Lemma head_take2 (l : list string) : head l = head (take 2 l).
Proof. now destruct l. Qed.

Lemma second_take2 (l : list string) : l !! 1 = take 2 l !! 1.
Proof. destruct l as [|a [|b l]]; reflexivity. Qed.

Lemma process_header_take2 (st : locals) (h h' : string) :
  lineCount st = HEADER → skipped h = false → skipped h' = false →
  take 2 (words h) = take 2 (words h') →
  process_line st h = process_line st h'.
Proof.
  intros H1 Hh Hh' Ht.
  rewrite (process_line_header st h Hh H1), (process_line_header st h' Hh' H1).
  rewrite !header_id_words, !header_type_words.
  now rewrite (head_take2 (words h)), (second_take2 (words h)), Ht,
    <- head_take2, <- second_take2.
Qed.

(** With two tokens on the header line, the values of the variables
    before it do not matter. *)
Lemma process_header_two_tokens (st st' : locals) (h id tp : string)
    (more : list string) :
  lineCount st = HEADER → lineCount st' = HEADER → this st = this st' →
  skipped h = false → words h = id :: tp :: more →
  process_line st h = process_line st' h.
Proof.
  intros H1 H1' Ht Hh Hw.
  rewrite (process_line_header st h Hh H1), (process_line_header st' h Hh H1').
  rewrite !header_id_words, !header_type_words, Hw, Ht. reflexivity.
Qed.

End HeaderTokens.

(** X8: of a header line only the first two tokens count: two header
    lines with the same first two tokens (a material name or a comment may
    follow on either) leave the same state. *)
Theorem header_tokens_after_the_second_are_ignored (st : locals) (h h' : string) :
  lineCount st = HEADER → skipped h = false → skipped h' = false →
  take 2 (words h) = take 2 (words h') →
  process_line st h = process_line st h'.
Proof. apply process_header_take2. Qed.

Lemma header_tokens_after_the_second_are_ignored_witness :
  process_line (enter fresh) "1011 ISOELASTIC steel"
  = process_line (enter fresh) " 1011   ISOELASTIC   aluminium  ! comment".
Proof.
  apply (header_tokens_after_the_second_are_ignored (enter fresh)
           "1011 ISOELASTIC steel" " 1011   ISOELASTIC   aluminium  ! comment");
    reflexivity.
Defined.

(** X9: a line changes the record under the current id at most: the
    record under any other key is as before the line. *)
Theorem other_records_are_untouched (st : locals) (line k : string) :
  k ≠ currentSubsystemId (process_line st line) →
  materials (this (process_line st line)) !! k = materials (this st) !! k.
Proof.
  intros Hk. destruct (skipped line) eqn:Hs.
  { now rewrite process_line_skipped. }
  destruct (Z.eq_dec (lineCount st) HEADER) as [H1|H1].
  { rewrite (process_line_header st line Hs H1) in *. cbv zeta in *.
    cbn [this materials currentSubsystemId] in *.
    rewrite map_insert_lookup. rewrite decide_False by congruence.
    now destruct (materials (this st) !! k). }
  destruct (Z.eq_dec (lineCount st) PROPERTIES) as [H2|H2].
  { rewrite (process_line_properties st line Hs H2) in *.
    cbn [this materials currentSubsystemId] in *.
    rewrite read_properties_line.
    destruct (materials (this st) !! currentSubsystemId st); [|reflexivity].
    now rewrite lookup_insert_ne by congruence. }
  now rewrite process_line_idle.
Qed.

Lemma other_records_are_untouched_witness :
  materials (this (process_line
                     (process_lines (enter fresh) ["1 GAS"; "1.0"; "2 LIQUID"])
                     "2.0 3.0")) !! "1"
  = materials (this (process_lines (enter fresh) ["1 GAS"; "1.0"; "2 LIQUID"])) !! "1".
Proof.
  apply (other_records_are_untouched
           (process_lines (enter fresh) ["1 GAS"; "1.0"; "2 LIQUID"])
           "2.0 3.0" "1").
  vm_compute. discriminate.
Defined.

(** X10: the loop [while (iss >> prop)] reads the numeric tokens of the
    line, up to the first token that is not a number, exactly when the
    tokens are whole: a token that only starts with a number makes the two
    differ. *)
Theorem loop_reads_tokens_iff_whole (line : string) :
  line_doubles line = numeric_prefix (words line)
  ↔ whole_tokens (words line) = true.
Proof.
  symmetry. apply (line_doubles_words (S (String.length line))). lia.
Qed.

(** X11: a header line with at least two tokens whose first token is not
    a key, followed by a properties line, adds one record: its id is the
    first token, its type the second, its properties the numbers read from
    the properties line; the phase is [HEADER] again. *)
Theorem record_of_two_lines (st : locals) (h p id tp : string)
    (more : list string) :
  lineCount st = HEADER → skipped h = false → skipped p = false →
  words h = id :: tp :: more →
  materials (this st) !! id = None →
  materials (this (process_lines st [h; p]))
  = <[id := mkMaterial id tp (line_doubles p)]> (materials (this st))
  ∧ lineCount (process_lines st [h; p]) = HEADER.
Proof.
  intros H1 Hh Hp Hw Hn.
  unfold process_lines. cbn [fold_left].
  rewrite (process_line_header st h Hh H1). cbv zeta.
  rewrite header_id_words, header_type_words, Hw.
  cbv [from_option Datatypes.id head]. cbn [lookup list_lookup].
  rewrite process_line_properties by (assumption || reflexivity).
  cbn [this materials currentSubsystemId lineCount].
  split; [|reflexivity].
  rewrite read_properties_line. unfold map_insert. rewrite Hn.
  rewrite lookup_insert_eq, insert_insert_eq. reflexivity.
Qed.

Lemma record_of_two_lines_witness :
  materials (this (process_lines (enter fresh)
                     ["1011 ISOELASTIC steel"; "7.85e-6 2.07e8 8.0e7 0.3 #1061"]))
  = <["1011" := mkMaterial "1011" "ISOELASTIC"
                  (line_doubles "7.85e-6 2.07e8 8.0e7 0.3 #1061")]>
      (materials (this (enter fresh)))
  ∧ lineCount (process_lines (enter fresh)
                 ["1011 ISOELASTIC steel"; "7.85e-6 2.07e8 8.0e7 0.3 #1061"])
    = HEADER.
Proof.
  apply (record_of_two_lines (enter fresh) "1011 ISOELASTIC steel"
           "7.85e-6 2.07e8 8.0e7 0.3 #1061" "1011" "ISOELASTIC" ["steel"]);
    reflexivity.
Defined.

Section TwoCalls.

(** Lines read from two states with the same reader, both in phase
    [HEADER], when the first line that is not skipped has two tokens. *)
Lemma process_lines_same_reader (st st' : locals) (lines : list string) :
  lineCount st = HEADER → lineCount st' = HEADER → this st = this st' →
  (∀ h, head (filter (fun l => data_line l = true) lines) = Some h →
        2 <= length (words h)) →
  this (process_lines st lines) = this (process_lines st' lines).
Proof.
  revert st st'. induction lines as [|l ls IH]; intros st st' H1 H1' Ht Hh.
  { exact Ht. }
  change (process_lines ?s (l :: ls)) with (process_lines (process_line s l) ls).
  rewrite filter_cons in Hh.
  destruct (decide (data_line l = true)) as [Hd|Hd]; unfold data_line in Hd.
  - apply negb_true_iff in Hd. specialize (Hh l eq_refl).
    destruct (words l) as [|id [|tp more]] eqn:Hw; [simpl in Hh; lia..|].
    now rewrite (process_header_two_tokens st st' l id tp more).
  - apply not_true_is_false, negb_false_iff in Hd.
    rewrite !process_line_skipped by exact Hd. now apply IH.
Qed.

End TwoCalls.

(** X12: two calls on one reader, first on a file that ends in phase
    [HEADER] and then on a file whose first line that is not skipped has at
    least two tokens, leave the reader that one call leaves on a file with
    the lines of the first followed by the lines of the second. *)
Theorem two_calls_as_one (fs : FileSystem) (a b ab ca cb cab : string)
    (rd : MatFileReader) :
  fs a = Some ca → fs b = Some cb → fs ab = Some cab →
  getlines cab = getlines ca ++ getlines cb →
  lineCount (process_lines (enter rd) (getlines ca)) = HEADER →
  (∀ h, head (filter (fun l => data_line l = true) (getlines cb)) = Some h →
        2 <= length (words h)) →
  fst (readMatFile fs b (fst (readMatFile fs a rd)))
  = fst (readMatFile fs ab rd).
Proof.
  intros Ha Hb Hab Hlines H1 Hh.
  unfold readMatFile. rewrite Ha, Hb, Hab. cbn [fst].
  rewrite Hlines, process_lines_app.
  apply process_lines_same_reader; [reflexivity|exact H1|reflexivity|exact Hh].
Qed.

Lemma two_calls_as_one_witness :
  fst (readMatFile
         (fun path =>
            if String.eqb path "a.mat" then Some (text ["1 GAS"; "1.0"])
            else if String.eqb path "b.mat" then Some (text ["! more"; "1 AIR x"; "2.0"])
            else if String.eqb path "ab.mat"
                 then Some (text ["1 GAS"; "1.0"; "! more"; "1 AIR x"; "2.0"])
            else None)
         "b.mat"
         (fst (readMatFile
                 (fun path =>
                    if String.eqb path "a.mat" then Some (text ["1 GAS"; "1.0"])
                    else if String.eqb path "b.mat"
                         then Some (text ["! more"; "1 AIR x"; "2.0"])
                    else if String.eqb path "ab.mat"
                         then Some (text ["1 GAS"; "1.0"; "! more"; "1 AIR x"; "2.0"])
                    else None)
                 "a.mat" fresh)))
  = fst (readMatFile
           (fun path =>
              if String.eqb path "a.mat" then Some (text ["1 GAS"; "1.0"])
              else if String.eqb path "b.mat" then Some (text ["! more"; "1 AIR x"; "2.0"])
              else if String.eqb path "ab.mat"
                   then Some (text ["1 GAS"; "1.0"; "! more"; "1 AIR x"; "2.0"])
              else None)
           "ab.mat" fresh).
Proof.
  apply (two_calls_as_one _ "a.mat" "b.mat" "ab.mat"
           (text ["1 GAS"; "1.0"]) (text ["! more"; "1 AIR x"; "2.0"])
           (text ["1 GAS"; "1.0"; "! more"; "1 AIR x"; "2.0"]) fresh);
    try reflexivity.
  intros h [= <-]. vm_compute. lia.
Defined.
